(** * ssh_generate.py: rotation of legacy ssh-rsa checkout keys

    A shallow embedding of [src/ssh_generate.py] and the properties of its
    HTTP helper ([request]) and of its rotation workflow ([main]).

    The script talks to three things outside itself: the HTTP client
    ([urllib.request.urlopen]), the file system (two append-only logs) and
    the terminal.  They are modelled by an explicit [World] that is threaded
    through every call; Python exceptions are the [Raised] results of a small
    state-and-error monad. *)

From Stdlib Require Import String Ascii List ZArith NArith Bool Lia Floats.
From Stdlib Require Import DecimalString.
Import ListNotations.
Local Open Scope string_scope.
Local Open Scope list_scope.

Set Warnings "-register-all".

(* ================================================================= *)
(** ** Python strings *)

(** Strings are byte strings: a Python [str] is held as its UTF-8 bytes.  The
    case conversions ([casefold], [upper], [capitalize]) are the ASCII ones:
    they map the letters [A-Z] and [a-z] and leave every other byte alone.
    They agree with Python on every text of ASCII characters, which covers
    the script's own arguments (the methods [GET] and [POST], its header
    names, its URLs).  On a text with other letters Python's conversions can
    differ (the upper case of the long s, U+017F, is [S]); nothing below is
    claimed for such texts. *)
Module PyStr.

Definition is_upper (c : ascii) : bool :=
  let n := N_of_ascii c in ((65 <=? n) && (n <=? 90))%N.

Definition is_lower (c : ascii) : bool :=
  let n := N_of_ascii c in ((97 <=? n) && (n <=? 122))%N.

Definition is_digit (c : ascii) : bool :=
  let n := N_of_ascii c in ((48 <=? n) && (n <=? 57))%N.

Definition lower_char (c : ascii) : ascii :=
  if is_upper c then ascii_of_N (N_of_ascii c + 32) else c.

Definition upper_char (c : ascii) : ascii :=
  if is_lower c then ascii_of_N (N_of_ascii c - 32) else c.

Fixpoint map_chars (f : ascii -> ascii) (s : string) : string :=
  match s with
  | EmptyString => EmptyString
  | String c r => String (f c) (map_chars f r)
  end.

(** [s.casefold()] *)
Definition casefold (s : string) : string := map_chars lower_char s.

(** [s.upper()] *)
Definition upper (s : string) : string := map_chars upper_char s.

(** [s.capitalize()]: the first character in upper case, the rest in lower
    case. *)
Definition capitalize (s : string) : string :=
  match s with
  | EmptyString => EmptyString
  | String c r => String (upper_char c) (map_chars lower_char r)
  end.

(** [s.startswith(p)] *)
Definition startswith (s p : string) : bool := String.prefix p s.

(** [needle in hay] for two strings: substring test. *)
Definition contains (hay needle : string) : bool :=
  match String.index 0 needle hay with Some _ => true | None => false end.

(** [s.split(sep)] for a one-character separator: never empty. *)
Fixpoint split (sep : ascii) (s : string) : list string :=
  match s with
  | EmptyString => [EmptyString]
  | String c r =>
      if Ascii.eqb c sep then EmptyString :: split sep r
      else match split sep r with
           | h :: t => String c h :: t
           | [] => [String c EmptyString]
           end
  end.

(** [sep.join(l)] *)
Fixpoint join (sep : string) (l : list string) : string :=
  match l with
  | [] => EmptyString
  | [x] => x
  | x :: r => x ++ sep ++ join sep r
  end.

(** Membership of a character in a string used as a set of characters. *)
Fixpoint mem_char (c : ascii) (s : string) : bool :=
  match s with
  | EmptyString => false
  | String d r => Ascii.eqb c d || mem_char c r
  end.

End PyStr.

(* ================================================================= *)
(** ** Python values and dictionaries *)

(** A [dict] with string keys, in insertion order.  [dict_set] is the item
    assignment [d[k] = v]: it overwrites in place or appends. *)
Definition dict (V : Type) : Type := list (string * V).

Fixpoint dict_get {V} (d : dict V) (k : string) : option V :=
  match d with
  | [] => None
  | (k', v) :: r => if String.eqb k k' then Some v else dict_get r k
  end.

Fixpoint dict_set {V} (d : dict V) (k : string) (v : V) : dict V :=
  match d with
  | [] => [(k, v)]
  | (k', v') :: r =>
      if String.eqb k k' then (k', v) :: r else (k', v') :: dict_set r k v
  end.

(** [{**a, **b}]: the items of [b] assigned one after the other into [a]. *)
Definition dict_merge {V} (a b : dict V) : dict V :=
  fold_left (fun d kv => dict_set d (fst kv) (snd kv)) b a.

Definition dict_keys {V} (d : dict V) : list string := map fst d.

(** A dictionary holds each key once. *)
Definition dict_wf {V} (d : dict V) : Prop := NoDup (dict_keys d).

(** The value of the last item whose key satisfies [q], if any. *)
Fixpoint last_named {V} (q : string -> bool) (d : dict V) : option V :=
  match d with
  | [] => None
  | (k, v) :: r =>
      match last_named q r with
      | Some x => Some x
      | None => if q k then Some v else None
      end
  end.

(** [x or {}] for an optional dictionary argument. *)
Definition or_empty {V} (d : option (dict V)) : dict V :=
  match d with Some x => x | None => [] end.

(** The values [json.loads] produces, which are also the values the script
    passes around: [None], booleans, integers, floats, texts, lists and
    dictionaries with text keys. *)
Inductive pyval : Type :=
| PNone
| PBool (b : bool)
| PInt (z : Z)
| PFloat (f : float)
| PStr (s : string)
| PList (l : list pyval)
| PDict (d : list (string * pyval)).

(** [class Response(typing.NamedTuple)].  The headers object
    ([email.message.Message]) is kept as its list of fields. *)
Record Response : Type := mkResponse {
  body : string;
  headers : dict string;
  status : Z;
  error_count : Z
}.

(** The script's own [raise Exception(text)].  The text embeds
    [str(response)], which prints an object address, so a message is kept as
    its raise site and the values formatted into it. *)
Inductive message : Type :=
| invalid_vcs_provided (vcs_input : string)
| error_retrieving_projects (response : Response) (url : string)
| no_projects_found_in_response
| project_name_is_not_found (PROJECT : string)
| error_getting_ssh_keys (response : Response) (url : string)
| error_creating_new_checkout_key (response : Response) (url : string).

(** Exceptions.  [Propagated] is whatever urllib raised other than
    [HTTPError]; [JSONDecodeError], [ValueError] and [RecursionError] are what
    [json.loads] can raise on a text. *)
Inductive exn : Type :=
| URLError (reason : string)
| TypeError
| KeyError (key : pyval)
| IndexError
| AttributeError
| PyException (msg : message)
| Propagated (what : string)
| JSONDecodeError
| ValueError
| RecursionError.

Inductive result (A : Type) : Type :=
| Returned (a : A)
| Raised (e : exn).
Arguments Returned {A} a.
Arguments Raised {A} e.

(** Pure Python operations that can raise. *)
Module Py.

(** [v[key]] for a string key. *)
Definition getitem (v : pyval) (key : string) : result pyval :=
  match v with
  | PDict d =>
      match dict_get d key with
      | Some x => Returned x
      | None => Raised (KeyError (PStr key))
      end
  | _ => Raised TypeError
  end.

(** [v[0]]; on a text, its first byte. *)
Definition getitem0 (v : pyval) : result pyval :=
  match v with
  | PList (x :: _) => Returned x
  | PList [] => Raised IndexError
  | PStr (String c _) => Returned (PStr (String c EmptyString))
  | PStr EmptyString => Raised IndexError
  | PDict _ => Raised (KeyError (PInt 0))
  | _ => Raised TypeError
  end.

(** [len(v)]; on a text, its length in bytes (the script only compares
    lengths with 0). *)
Definition len (v : pyval) : result Z :=
  match v with
  | PList l => Returned (Z.of_nat (List.length l))
  | PDict d => Returned (Z.of_nat (List.length d))
  | PStr s => Returned (Z.of_nat (String.length s))
  | _ => Raised TypeError
  end.

(** Truth value of [v] in a condition. *)
Definition truthy (v : pyval) : bool :=
  match v with
  | PNone => false
  | PBool b => b
  | PInt z => negb (Z.eqb z 0)
  | PFloat f => negb (PrimFloat.eqb f 0%float)
  | PStr s => negb (String.eqb s EmptyString)
  | PList l => match l with [] => false | _ => true end
  | PDict d => match d with [] => false | _ => true end
  end.

(** [v == s] for a string [s]. *)
Definition eq_str (v : pyval) (s : string) : bool :=
  match v with PStr t => String.eqb t s | _ => false end.

(** [key in v] for a string [key]. *)
Definition contains (v : pyval) (key : string) : result bool :=
  match v with
  | PDict d => Returned (match dict_get d key with Some _ => true | None => false end)
  | PStr s => Returned (PyStr.contains s key)
  | PList l => Returned (existsb (fun x => eq_str x key) l)
  | _ => Raised TypeError
  end.

(** The elements a [for] loop over [v] visits. *)
Fixpoint chars (s : string) : list pyval :=
  match s with
  | EmptyString => []
  | String c r => PStr (String c EmptyString) :: chars r
  end.

Definition iter (v : pyval) : result (list pyval) :=
  match v with
  | PList l => Returned l
  | PDict d => Returned (map (fun kv => PStr (fst kv)) d)
  | PStr s => Returned (chars s)
  | _ => Raised TypeError
  end.

(** [v.split("/")] *)
Definition split_slash (v : pyval) : result (list string) :=
  match v with
  | PStr s => Returned (PyStr.split "/" s)
  | _ => Raised AttributeError
  end.

(** [v.startswith(p)] *)
Definition startswith (v : pyval) (p : string) : result bool :=
  match v with
  | PStr s => Returned (PyStr.startswith s p)
  | _ => Raised AttributeError
  end.

(** [l[-n]] for [n >= 1]. *)
Definition from_end {A} (l : list A) (n : nat) : result A :=
  match nth_error (rev l) (n - 1) with
  | Some x => Returned x
  | None => Raised IndexError
  end.

(** [l[i]] for a list of strings ([sys.argv]). *)
Definition index (l : list string) (i : nat) : result string :=
  match nth_error l i with
  | Some x => Returned x
  | None => Raised IndexError
  end.

End Py.

(* ================================================================= *)
(** ** urllib.parse: percent-encoding *)

Module UrlParse.

Definition hex_digit (n : N) : ascii :=
  if (n <? 10)%N then ascii_of_N (48 + n) else ascii_of_N (55 + n).

(** ["%XX"], upper-case hexadecimal. *)
Definition percent (c : ascii) : string :=
  String "%" (String (hex_digit (N_of_ascii c / 16))
             (String (hex_digit (N_of_ascii c mod 16)) EmptyString)).

(** [_ALWAYS_SAFE]: letters, digits and [_.-~]. *)
Definition always_safe (c : ascii) : bool :=
  PyStr.is_upper c || PyStr.is_lower c || PyStr.is_digit c
  || PyStr.mem_char c "_.-~".

(** [quote(s, safe)] *)
Fixpoint quote (s safe : string) : string :=
  match s with
  | EmptyString => EmptyString
  | String c r =>
      (if always_safe c || PyStr.mem_char c safe
       then String c EmptyString else percent c) ++ quote r safe
  end.

Definition space_to_plus (c : ascii) : ascii :=
  if Ascii.eqb c " " then "+"%char else c.

(** [quote_plus(s, safe)]: as [quote], with each space turned into [+]. *)
Definition quote_plus (s safe : string) : string :=
  if PyStr.mem_char " " s
  then PyStr.map_chars space_to_plus (quote s (safe ++ " "))
  else quote s safe.

End UrlParse.

(* ================================================================= *)
(** ** The world outside the script *)

(** The arguments of one call
    [urllib.request.Request(url, data=request_data, headers=headers,
    method=method)], as the script passes them: the URL text, the body, the
    headers mapping with the keys as the script wrote them, and the method.
    What urllib then does with them (it stores header names capitalised,
    rejects a text without a scheme, picks a handler by scheme) is not part
    of the record. *)
Record Request : Type := mkRequest {
  req_url : string;
  req_data : option string;
  req_headers : dict string;
  req_method : string
}.

(** What the constructor of [urllib.request.Request] keeps of the headers
    mapping it is given:
    [for key, value in headers.items(): self.add_header(key, value)], where
    [add_header] is [self.headers[key.capitalize()] = val].  Two spellings of
    one name end in one entry, with the value of the later one. *)
Definition stored_headers (headers : dict string) : dict string :=
  fold_left
    (fun stored kv => dict_set stored (PyStr.capitalize (fst kv)) (snd kv))
    headers [].

(** The three ways the call into urllib can end, from the constructor of
    [Request] to the end of the [try] block of [request].
    - [HTTPResponse h s b]: [urlopen] answered with a non-error status; [h]
      and [s] are [httpresponse.headers] and [httpresponse.status], and [b] is
      the text [httpresponse.read().decode(charset)];
    - [HTTPError r h c]: [urlopen] raised [urllib.error.HTTPError], with
      [str(e.reason)], [e.headers] and [e.code];
    - [OtherError w]: anything else raised by the constructor or inside the
      block ([ValueError] for a text that is no URL, [URLError] for a scheme
      without handler, a transport failure, a failed read or decode);
      nothing catches it. *)
Inductive urlopen_outcome : Type :=
| HTTPResponse (hdrs : dict string) (code : Z) (text : string)
| HTTPError (reason : string) (hdrs : dict string) (code : Z)
| OtherError (what : string).

(** [network]: the requests passed to urllib, oldest first.
    [files]: the texts appended to files, as (file name, text), oldest first.
    [stdout]: the printed lines. *)
Record World : Type := mkWorld {
  network : list Request;
  files : list (string * string);
  stdout : list string
}.

(** The world after one more request was passed to urllib. *)
Definition sent (w : World) (r : Request) : World :=
  {| network := network w ++ [r]; files := files w; stdout := stdout w |}.

(** The text of a file: what was appended to it, in order. *)
Definition file_text (w : World) (name : string) : string :=
  String.concat EmptyString
    (map snd (filter (fun e => String.eqb (fst e) name) (files w))).

(* ================================================================= *)
(** ** State and exceptions *)

Class Monad (m : Type -> Type) : Type := {
  ret : forall {A}, A -> m A;
  bind : forall {A B}, m A -> (A -> m B) -> m B
}.

Declare Scope py_scope.
Delimit Scope py_scope with py.
Notation "x <- c1 ;; c2" := (bind c1 (fun x => c2))
  (at level 61, c1 at next level, right associativity) : py_scope.
Notation "c1 ;; c2" := (bind c1 (fun _ => c2))
  (at level 61, right associativity) : py_scope.
Local Open Scope py_scope.

#[global] Instance result_monad : Monad result := {
  ret := fun A a => Returned a;
  bind := fun A B r f =>
    match r with Returned a => f a | Raised e => Raised e end
}.

(** A computation of the script: it reads and updates the world, and returns
    or raises. *)
Definition M (A : Type) : Type := World -> result A * World.

#[global] Instance script_monad : Monad M := {
  ret := fun A a w => (Returned a, w);
  bind := fun A B c f w =>
    match c w with
    | (Returned a, w') => f a w'
    | (Raised e, w') => (Raised e, w')
    end
}.

Definition raise {A} (e : exn) : M A := fun w => (Raised e, w).

Definition lift {A} (r : result A) : M A := fun w => (r, w).

Definition print (line : string) : M unit := fun w =>
  (Returned tt,
   {| network := network w; files := files w; stdout := stdout w ++ [line] |}).

(** [f = open(name, "a"); f.write(text); f.close()] *)
Definition append_to_file (name text : string) : M unit := fun w =>
  (Returned tt,
   {| network := network w; files := files w ++ [(name, text)];
      stdout := stdout w |}).

(** A [for] loop whose body may [continue] (return) or raise. *)
Fixpoint for_each {A} (l : list A) (loop_body : A -> M unit) : M unit :=
  match l with
  | [] => ret tt
  | x :: r => loop_body x ;; for_each r loop_body
  end.

Definition newline : string := String (ascii_of_nat 10) EmptyString.

(* ================================================================= *)
(** ** The environment *)

(** What the script relies on and does not define: three library functions
    and urllib with the server behind it.
    - [py_repr v]: Python's [repr(v)];
    - [json_dumps v]: [json.dumps(v)];
    - [json_loads s]: [json.loads(s)], which returns a value or raises:
      [JSONDecodeError] on a text that is not JSON, and on some JSON texts
      another exception ([ValueError] for an integer beyond the digit limit
      of the interpreter, [RecursionError] for deep nesting);
    - [server past r]: how the call into urllib for [r] ends when the
      requests [past] were made before. *)
Class Environment : Type := {
  py_repr : pyval -> string;
  json_dumps : pyval -> string;
  json_loads : string -> result pyval;
  server : list Request -> Request -> urlopen_outcome
}.

(* ================================================================= *)
(** ** The script *)

Section Script.

Context {env : Environment}.

(** [str(v)] *)
Definition py_str (v : pyval) : string :=
  match v with PStr s => s | _ => py_repr v end.

(** *** urllib.parse.urlencode *)

(** The [key=value] components one item of the query contributes. *)
Definition encode_item (doseq : bool) (safe : string)
    (kv : string * pyval) : list string :=
  let k := UrlParse.quote_plus (fst kv) safe in
  let single v := [(k ++ "=" ++ UrlParse.quote_plus (py_str v) safe)%string] in
  match snd kv with
  | PStr s => [(k ++ "=" ++ UrlParse.quote_plus s safe)%string]
  | PList l =>
      if doseq
      then map (fun elt =>
                  (k ++ "=" ++ UrlParse.quote_plus (py_str elt) safe)%string) l
      else single (PList l)
  | PDict d =>
      if doseq
      then map (fun e =>
                  (k ++ "=" ++ UrlParse.quote_plus (fst e) safe)%string) d
      else single (PDict d)
  | v => single v
  end.

Definition components (doseq : bool) (safe : string)
    (query : dict pyval) : list string :=
  flat_map (encode_item doseq safe) query.

(** [urllib.parse.urlencode(query, doseq=doseq, safe=safe)] *)
Definition urlencode (query : dict pyval) (doseq : bool) (safe : string)
    : string :=
  PyStr.join "&" (components doseq safe query).

(** *** Response.json *)

Definition json (self : Response) : result pyval :=
  match json_loads (body self) with
  | Returned output => Returned output
  | Raised JSONDecodeError => Returned (PStr "")
  | Raised e => Raised e
  end.

(** *** request *)

(** The guard of [request]: [url.casefold().startswith("http")]. *)
Definition begins_with_http (url : string) : bool :=
  PyStr.startswith (PyStr.casefold url) "http".

(** The [urllib.request.Request] that [request] builds, from
    [method = method.upper()] to the call of the constructor. *)
Definition httprequest_of (url : string) (data params : option (dict pyval))
    (headers : option (dict string)) (method : string)
    (data_as_json : bool) : Request :=
  let method := PyStr.upper method in
  let request_data : option string := None in
  let headers := or_empty headers in
  let data := or_empty data in
  let params := or_empty params in
  let headers := dict_merge [("Accept", "application/json")] headers in
  let '(params, data) :=
    if String.eqb method "GET"
    then (dict_merge params data, @None (dict pyval))
    else (params, Some data) in
  let url :=
    match params with
    | [] => url
    | _ :: _ => (url ++ "?" ++ urlencode params true "/")%string
    end in
  let '(request_data, headers) :=
    match data with
    | Some ((_ :: _) as data) =>
        if data_as_json
        then (Some (json_dumps (PDict data)),
              dict_set headers "Content-Type"
                "application/json; charset=UTF-8")
        else (Some (urlencode data false ""), headers)
    | _ => (request_data, headers)
    end in
  {| req_url := url; req_data := request_data; req_headers := headers;
     req_method := method |}.

(** [urllib.request.Request(...)] and [urllib.request.urlopen(httprequest)]
    with the block under it: the request is recorded and the server decides
    how the call ends. *)
Definition urlopen (httprequest : Request) : World -> urlopen_outcome * World :=
  fun w => (server (network w) httprequest, sent w httprequest).

Definition request (url : string) (data params : option (dict pyval))
    (headers : option (dict string)) (method : string)
    (data_as_json : bool) (error_count : Z) : M Response :=
  if negb (begins_with_http url)
  then raise (URLError "Incorrect and possibly insecure protocol in url")
  else
    let httprequest :=
      httprequest_of url data params headers method data_as_json in
    fun w =>
      match urlopen httprequest w with
      | (HTTPResponse hdrs code text, w') =>
          (Returned {| body := text; headers := hdrs; status := code;
                       error_count := 0 |}, w')
      | (HTTPError reason hdrs code, w') =>
          (Returned {| body := reason; headers := hdrs; status := code;
                       error_count := error_count + 1 |}, w')
      | (OtherError what, w') => (Raised (Propagated what), w')
      end.

(** [request(url=url, headers=headers)] *)
Definition get (url : string) (headers : dict string) : M Response :=
  request url None None (Some headers) "GET" true 0.

(** [request(method="POST", url=url, headers=headers, data=payload)] *)
Definition post (url : string) (headers : dict string)
    (payload : dict pyval) : M Response :=
  request url (Some payload) None (Some headers) "POST" true 0.

(** *** convert_vcs *)

Definition vcs_map : dict string :=
  [("gh", "github"); ("bb", "bitbucket"); ("github", "github");
   ("bitbucket", "bitbucket")].

Definition convert_vcs (vcs_input : string) : result string :=
  match dict_get vcs_map vcs_input with
  | Some v => Returned v
  | None => Raised (PyException (invalid_vcs_provided vcs_input))
  end.

(** *** main *)

(** The first loop of [main]: the names of the projects to check, in the
    order of the listing.  [project_names] is the list built so far. *)
Fixpoint eligible_projects (ORG : string) (projects : list pyval)
    (project_names : list string) : result (list string) :=
  match projects with
  | [] => Returned project_names
  | project :: rest =>
      vcs_url <- Py.getitem project "vcs_url" ;;
      vcs_url_parts <- Py.split_slash vcs_url ;;
      project_name <- Py.from_end vcs_url_parts 1 ;;
      org_name <- Py.from_end vcs_url_parts 2 ;;
      followers <- Py.getitem project "followers" ;;
      n <- Py.len followers ;;
      if (n >? 0)%Z && String.eqb org_name ORG
      then eligible_projects ORG rest (project_names ++ [project_name])%list
      else eligible_projects ORG rest project_names
  end.

(** [if PROJECT: ...]: narrowing to one named project. *)
Definition narrow (PROJECT : string) (project_names : list string)
    : result (list string) :=
  if negb (String.eqb PROJECT "")
  then
    if existsb (String.eqb PROJECT) project_names
    then Returned [PROJECT]
    else Raised (PyException (project_name_is_not_found PROJECT))
  else Returned project_names.

Definition checkout_key_url (VCS ORG project : string) : string :=
  "https://circleci.com/api/v2/project/" ++ VCS ++ "/" ++ ORG ++ "/"
    ++ project ++ "/checkout-key".

(** [key_info['preferred'] and key_info['public_key'].startswith('ssh-rsa')]
    as the truth value the [if] tests; the right operand is evaluated only
    when the left one is true. *)
Definition preferred_ssh_rsa (key_info : pyval) : result bool :=
  preferred <- Py.getitem key_info "preferred" ;;
  if Py.truthy preferred
  then
    public_key <- Py.getitem key_info "public_key" ;;
    Py.startswith public_key "ssh-rsa"
  else Returned false.

(** The payload of the key-creation call. *)
Definition payload_for (ssh_key_type : pyval) : dict pyval :=
  if Py.eq_str ssh_key_type "github-user-key"
  then [("type", PStr "user-key")]
  else [("type", PStr "deploy-key")].

(** The branch of the second loop that replaces the key: from the first
    [print] under the [if] to the write into [new_keys_<org>.txt].
    [ssh_keys_resp] is the decoded listing, [key_info] its first key. *)
Definition create_key (headers : dict string) (VCS ORG project : string)
    (ssh_keys_resp key_info : pyval) : M unit :=
  print ("ssh-rsa key found as prefered ssh key for " ++ project) ;;
  ssh_key_type <- lift (Py.getitem key_info "type") ;;
  print (project ++ " old preffered key: old_keys_" ++ ORG ++ ".txt") ;;
  append_to_file ("old_keys_" ++ ORG ++ ".txt")
    (py_str ssh_keys_resp ++ newline) ;;
  print ("Creating key for " ++ project
         ++ " logging new key to new_keys_" ++ ORG ++ ".txt") ;;
  let payload := payload_for ssh_key_type in
  let checkout_key_url := checkout_key_url VCS ORG project in
  checkout_key_resp <- post checkout_key_url headers payload ;;
  if (status checkout_key_resp =? 403)%Z
  then
    print ("skipping project: " ++ project
           ++ " as unable to create new key. url: " ++ checkout_key_url)
  else if (error_count checkout_key_resp >? 0)%Z
  then raise (PyException
                (error_creating_new_checkout_key checkout_key_resp
                   checkout_key_url))
  else
    checkout_key_resp <- lift (json checkout_key_resp) ;;
    append_to_file ("new_keys_" ++ ORG ++ ".txt")
      (project ++ " new prefered key: " ++ py_str checkout_key_resp
       ++ " " ++ newline).

(** The body of the second loop of [main], for one project. *)
Definition rotate_project (headers : dict string) (VCS ORG : string)
    (project : string) : M unit :=
  let ssh_keys_url := checkout_key_url VCS ORG project in
  ssh_keys_resp <- get ssh_keys_url headers ;;
  if (error_count ssh_keys_resp >? 0)%Z
  then raise (PyException (error_getting_ssh_keys ssh_keys_resp ssh_keys_url))
  else
    ssh_keys_resp <- lift (json ssh_keys_resp) ;;
    key_info <- lift (Py.getitem ssh_keys_resp "items") ;;
    n <- lift (Py.len key_info) ;;
    if (n =? 0)%Z then ret tt
    else
      key_info <- lift (Py.getitem0 key_info) ;;
      rotate <- lift (preferred_ssh_rsa key_info) ;;
      if rotate : bool
      then create_key headers VCS ORG project ssh_keys_resp key_info
      else
        print (project ++ " prefered key is not ssh-rsa, no action taken.").

(** The second loop of [main]. *)
Definition rotate_all (headers : dict string) (VCS ORG : string)
    (project_names : list string) : M unit :=
  for_each project_names (rotate_project headers VCS ORG).

Definition main (argv : list string) : M unit :=
  CIRCLE_API_TOKEN <- lift (Py.index argv 1) ;;
  ORG <- lift (Py.index argv 2) ;;
  vcs_input <- lift (Py.index argv 3) ;;
  VCS <- lift (convert_vcs vcs_input) ;;
  PROJECT <- lift (Py.index argv 4) ;;
  let headers :=
    [("Circle-Token", CIRCLE_API_TOKEN);
     ("Content-type", "application/json")] in
  let projects_url :=
    ("https://circleci.com/api/v1.1/organization/" ++ VCS ++ "/" ++ ORG
       ++ "/settings")%string in
  projects_resp <- get projects_url headers ;;
  if (error_count projects_resp >? 0)%Z
  then raise (PyException (error_retrieving_projects projects_resp projects_url))
  else
    projects_resp <- lift (json projects_resp) ;;
    found <- lift (Py.contains projects_resp "projects") ;;
    if negb found
    then raise (PyException no_projects_found_in_response)
    else
      projects <- lift (Py.getitem projects_resp "projects") ;;
      projects <- lift (Py.iter projects) ;;
      project_names <- lift (eligible_projects ORG projects []) ;;
      project_names <- lift (narrow PROJECT project_names) ;;
      rotate_all headers VCS ORG project_names.

(* --------------------------------------------------------------- *)
(** *** Vocabulary of the properties *)

Definition guard_error : exn :=
  URLError "Incorrect and possibly insecure protocol in url".

(** What [request] returns for each way the [try] block can end. *)
Definition response_of (o : urlopen_outcome) (error_count : Z)
    : result Response :=
  match o with
  | HTTPResponse hdrs code text =>
      Returned {| body := text; headers := hdrs; status := code;
                  error_count := 0 |}
  | HTTPError reason hdrs code =>
      Returned {| body := reason; headers := hdrs; status := code;
                  error_count := error_count + 1 |}
  | OtherError what => Raised (Propagated what)
  end.

(** A URL with the scheme [http] or [https], in any letter case. *)
Definition has_http_scheme (url : string) : bool :=
  PyStr.startswith (PyStr.casefold url) "http://"
  || PyStr.startswith (PyStr.casefold url) "https://".

(** A text whose first four characters are the letters [h], [t], [t], [p],
    each in either case; nothing is asked of what follows them. *)
Definition http_prefixed (url : string) : Prop :=
  exists c1 c2 c3 c4 rest,
    url = String c1 (String c2 (String c3 (String c4 rest)))
    /\ (c1 = "h" \/ c1 = "H")%char
    /\ (c2 = "t" \/ c2 = "T")%char
    /\ (c3 = "t" \/ c3 = "T")%char
    /\ (c4 = "p" \/ c4 = "P")%char.

(** A project of the listing as the API documents it: a [vcs_url] text
    with at least two [/]-separated segments and a list of followers. *)
Definition listed_project (project : pyval) : Prop :=
  exists vcs_url followers,
    Py.getitem project "vcs_url" = Returned (PStr vcs_url)
    /\ Py.getitem project "followers" = Returned (PList followers)
    /\ 2 <= List.length (PyStr.split "/" vcs_url).

(** The [/]-separated segments of a project's [vcs_url]. *)
Definition vcs_url_segments (project : pyval) : list string :=
  match Py.getitem project "vcs_url" with
  | Returned (PStr vcs_url) => PyStr.split "/" vcs_url
  | _ => []
  end.

(** The [n]-th segment from the end, [n >= 1]. *)
Definition segment_from_end (project : pyval) (n : nat) : string :=
  nth (n - 1) (rev (vcs_url_segments project)) EmptyString.

Definition has_followers (project : pyval) : bool :=
  match Py.getitem project "followers" with
  | Returned (PList (_ :: _)) => true
  | _ => false
  end.

(** Eligibility as the specification words it: at least one follower, and
    the second-to-last segment of [vcs_url] is the organization. *)
Definition eligible_spec (ORG : string) (project : pyval) : bool :=
  has_followers project && String.eqb (segment_from_end project 2) ORG.

(** The value [Response.json] returns for a body, when it returns. *)
Definition json_value (text : string) : pyval :=
  match json_loads text with Returned v => v | Raised _ => PStr "" end.

(** [json.loads] returns on the text or raises [JSONDecodeError]: the cases
    in which [Response.json] returns. *)
Definition json_returns (text : string) : Prop :=
  forall e, json_loads text = Raised e -> e = JSONDecodeError.

(** The request that lists the checkout keys of [project]. *)
Definition listing_request (headers : dict string)
    (VCS ORG project : string) : Request :=
  httprequest_of (checkout_key_url VCS ORG project) None None
    (Some headers) "GET" true.

(** The request that creates a key for [project]. *)
Definition creation_request (headers : dict string)
    (VCS ORG project : string) (ssh_key_type : pyval) : Request :=
  httprequest_of (checkout_key_url VCS ORG project)
    (Some (payload_for ssh_key_type)) None (Some headers) "POST" true.


(** The listing of [project] answers with a non-empty key list whose first
    key is [key_info], typed as the API documents it. *)
Definition keys_listed (headers : dict string) (VCS ORG project : string)
    (w : World) (text : string) (key_info : pyval) (others : list pyval)
    (preferred : bool) (public_key : string) (ssh_key_type : pyval) : Prop :=
  (exists hdrs code,
      server (network w) (listing_request headers VCS ORG project)
      = HTTPResponse hdrs code text)
  /\ Py.getitem (json_value text) "items"
     = Returned (PList (key_info :: others))
  /\ Py.getitem key_info "preferred" = Returned (PBool preferred)
  /\ Py.getitem key_info "public_key" = Returned (PStr public_key)
  /\ Py.getitem key_info "type" = Returned ssh_key_type.

(** [w'] is [w] with more appended and nothing else changed: at most [n]
    requests, each satisfying [P], at most [m] file writes, each satisfying
    [Q], and some printed lines. *)
Definition grows (P : Request -> Prop) (Q : string * string -> Prop)
    (n m : nat) (w w' : World) : Prop :=
  exists reqs writes out,
    network w' = (network w ++ reqs)%list
    /\ files w' = (files w ++ writes)%list
    /\ stdout w' = (stdout w ++ out)%list
    /\ Forall P reqs /\ Forall Q writes
    /\ List.length reqs <= n /\ List.length writes <= m.

(** A computation that, from every world, only appends in this way. *)
Definition confined {A} (P : Request -> Prop) (Q : string * string -> Prop)
    (n m : nat) (c : M A) : Prop :=
  forall w, grows P Q n m w (snd (c w)).

(** The two requests the loop makes for [project]. *)
Definition project_request (headers : dict string) (VCS ORG project : string)
    (r : Request) : Prop :=
  r = listing_request headers VCS ORG project
  \/ exists ssh_key_type,
       r = creation_request headers VCS ORG project ssh_key_type.

(** The two logs of the organization. *)
Definition log_write (ORG : string) (e : string * string) : Prop :=
  fst e = ("old_keys_" ++ ORG ++ ".txt")%string
  \/ fst e = ("new_keys_" ++ ORG ++ ".txt")%string.


(** A request as [main] makes them: to the CircleCI API over https, with the
    token and the [Accept] header, as a GET without body or as a POST whose
    body is the JSON text of a key type. *)
Definition api_request (token : string) (r : Request) : Prop :=
  PyStr.startswith (req_url r) "https://circleci.com/api/" = true
  /\ dict_get (req_headers r) "Circle-Token" = Some token
  /\ dict_get (req_headers r) "Accept" = Some "application/json"
  /\ ((req_method r = "GET" /\ req_data r = None)
      \/ (req_method r = "POST"
          /\ exists t, (t = "user-key" \/ t = "deploy-key")
                       /\ req_data r
                          = Some (json_dumps (PDict [("type", PStr t)])))).

(** What [main] does with the decoded project listing, from the test for
    [projects] to the narrowing: the project names its second loop visits. *)
Definition select_projects (ORG PROJECT : string) (projects_resp : pyval)
    : result (list string) :=
  found <- Py.contains projects_resp "projects" ;;
  if negb found
  then Raised (PyException no_projects_found_in_response)
  else
    projects <- Py.getitem projects_resp "projects" ;;
    projects <- Py.iter projects ;;
    project_names <- eligible_projects ORG projects [] ;;
    narrow PROJECT project_names.

(** The headers [main] passes to every call, and its first request. *)
Definition token_headers (CIRCLE_API_TOKEN : string) : dict string :=
  [("Circle-Token", CIRCLE_API_TOKEN); ("Content-type", "application/json")].

Definition projects_url (VCS ORG : string) : string :=
  "https://circleci.com/api/v1.1/organization/" ++ VCS ++ "/" ++ ORG
    ++ "/settings".

Definition projects_request (CIRCLE_API_TOKEN VCS ORG : string) : Request :=
  httprequest_of (projects_url VCS ORG) None None
    (Some (token_headers CIRCLE_API_TOKEN)) "GET" true.

End Script.

(* ================================================================= *)
(** ** An example deployment *)

(** The organization [acme] on GitHub with four projects, and a server that
    answers the three calls of the script for them.  The properties below
    are run on it. *)
Module Acme.

Local Open Scope string_scope.

Definition quote_mark : string := String (ascii_of_nat 34) EmptyString.

Definition decimal (z : Z) : string := NilZero.string_of_int (Z.to_int z).

(** [json.dumps] and [repr] on the values of the example: texts without
    escapes, and no floats. *)
Fixpoint dumps (v : pyval) : string :=
  match v with
  | PNone => "null"
  | PBool b => if b then "true" else "false"
  | PInt z => decimal z
  | PFloat _ => "NaN"
  | PStr s => quote_mark ++ s ++ quote_mark
  | PList l => "[" ++ PyStr.join ", " (map dumps l) ++ "]"
  | PDict d =>
      "{" ++ PyStr.join ", "
               (map (fun kv => quote_mark ++ fst kv ++ quote_mark ++ ": "
                               ++ dumps (snd kv)) d) ++ "}"
  end.

Fixpoint repr (v : pyval) : string :=
  match v with
  | PNone => "None"
  | PBool b => if b then "True" else "False"
  | PInt z => decimal z
  | PFloat _ => "nan"
  | PStr s => "'" ++ s ++ "'"
  | PList l => "[" ++ PyStr.join ", " (map repr l) ++ "]"
  | PDict d =>
      "{" ++ PyStr.join ", "
               (map (fun kv => "'" ++ fst kv ++ "': " ++ repr (snd kv)) d)
          ++ "}"
  end.

Definition project (vcs_url : string) (followers : list pyval) : pyval :=
  PDict [("vcs_url", PStr vcs_url); ("followers", PList followers)].

Definition key (type : string) (preferred : bool) (public_key : string)
    : pyval :=
  PDict [("type", PStr type); ("preferred", PBool preferred);
         ("public_key", PStr public_key)].

Definition widgets : pyval :=
  project "https://github.com/acme/widgets" [PStr "ann"].
Definition gadgets : pyval :=
  project "https://github.com/acme/gadgets" [PStr "bob"; PStr "cy"].
Definition orphan : pyval :=
  project "https://github.com/acme/orphan" [].
Definition foreign : pyval :=
  project "https://github.com/Acme/widgets" [PStr "dee"].

Definition settings : pyval :=
  PDict [("projects", PList [widgets; gadgets; orphan; foreign])].

Definition widgets_key : pyval := key "deploy-key" true "ssh-rsa AAAA".
Definition spare_key : pyval :=
  key "github-user-key" false "ssh-ed25519 CCCC".

Definition widgets_keys : pyval :=
  PDict [("items", PList [widgets_key; spare_key])].
Definition gadgets_keys : pyval :=
  PDict [("items", PList [key "deploy-key" true "ssh-ed25519 AAAA"])].
Definition user_keys : pyval :=
  PDict [("items", PList [key "github-user-key" true "ssh-rsa DDDD"])].
Definition new_key : pyval := key "deploy-key" true "ssh-ed25519 BBBB".
Definition no_items : pyval := PDict [("message", PStr "moved")].

(** [json.loads] on the texts the example server sends. *)
Definition documents : list pyval :=
  [settings; widgets_keys; gadgets_keys; user_keys; new_key; no_items].

Fixpoint all_digits (s : string) : bool :=
  match s with
  | EmptyString => true
  | String c r => PyStr.is_digit c && all_digits r
  end.

(** A JSON integer: digits, without a leading zero unless it is [0]. *)
Definition is_integer (s : string) : bool :=
  all_digits s
  && match s with
     | EmptyString => false
     | String c r => negb (Ascii.eqb c "0") || String.eqb r EmptyString
     end.

Definition integer_value (s : string) : Z :=
  match NilZero.int_of_string s with
  | Some i => Z.of_int i
  | None => 0
  end.

(** [json.loads] on a table of documents and on integers: an integer of
    more than 4300 digits raises [ValueError] (the digit limit of the
    interpreter), any other text outside the table is taken as not JSON. *)
Definition loads_from (table : list pyval) (s : string) : result pyval :=
  if is_integer s
  then if (4300 <? String.length s)%nat then Raised ValueError
       else Returned (PInt (integer_value s))
  else match find (fun v => String.eqb (dumps v) s) table with
       | Some v => Returned v
       | None => Raised JSONDecodeError
       end.

Definition loads (s : string) : result pyval := loads_from documents s.

(** A JSON integer of 4301 digits. *)
Fixpoint ones (n : nat) : string :=
  match n with
  | O => EmptyString
  | S k => String "1" (ones k)
  end.

Definition long_integer : string := ones 4301.

Definition settings_url : string :=
  "https://circleci.com/api/v1.1/organization/github/acme/settings".
Definition widgets_url : string :=
  "https://circleci.com/api/v2/project/github/acme/widgets/checkout-key".
Definition gadgets_url : string :=
  "https://circleci.com/api/v2/project/github/acme/gadgets/checkout-key".

(** The server: [listing] is the body it sends for the keys of [widgets],
    [creation] how the creation call for [widgets] ends. *)
Definition answer (listing : string) (creation : urlopen_outcome)
    (past : list Request) (r : Request) : urlopen_outcome :=
  if String.eqb (req_url r) settings_url
  then HTTPResponse [] 200 (dumps settings)
  else if String.eqb (req_url r) widgets_url
  then if String.eqb (req_method r) "GET"
       then HTTPResponse [] 200 listing
       else creation
  else if String.eqb (req_url r) gadgets_url
  then HTTPResponse [] 200 (dumps gadgets_keys)
  else HTTPError "Not Found" [] 404.

Definition deployment (listing : string) (creation : urlopen_outcome)
    : Environment :=
  {| py_repr := repr; json_dumps := dumps; json_loads := loads;
     server := answer listing creation |}.

Definition created : urlopen_outcome := HTTPResponse [] 201 (dumps new_key).
Definition forbidden : urlopen_outcome := HTTPError "Forbidden" [] 403.
Definition broken : urlopen_outcome :=
  HTTPError "Internal Server Error" [] 500.

(** The usual deployment: the keys of [widgets] are listed and the
    creation call succeeds. *)
Definition usual : Environment := deployment (dumps widgets_keys) created.

Definition start : World := {| network := []; files := []; stdout := [] |}.

Definition token_headers : dict string :=
  [("Circle-Token", "TOKEN"); ("Content-type", "application/json")].

Definition argv : list string :=
  ["ssh_generate.py"; "TOKEN"; "acme"; "gh"; ""].

(** A server that answers from a table of (method, URL) entries and with
    404 for everything else, and a deployment on it. *)
Definition scripted (table : list (string * string * urlopen_outcome))
    (past : list Request) (r : Request) : urlopen_outcome :=
  match find (fun e => String.eqb (fst (fst e)) (req_method r)
                       && String.eqb (snd (fst e)) (req_url r)) table with
  | Some e => snd e
  | None => HTTPError "Not Found" [] 404
  end.

Definition empty_keys : pyval := PDict [("items", PList [])].

Definition loads_more (s : string) : result pyval :=
  loads_from (documents ++ [empty_keys]) s.

Definition site (table : list (string * string * urlopen_outcome))
    : Environment :=
  {| py_repr := repr; json_dumps := dumps; json_loads := loads_more;
     server := scripted table |}.

Definition timed_out : urlopen_outcome := OtherError "timed out".
Definition unauthorized : urlopen_outcome := HTTPError "Unauthorized" [] 401.

End Acme.

(* ================================================================= *)
(** ** Properties *)

Section Properties.

Context {env : Environment}.

Arguments checkout_key_url : simpl never.
Arguments httprequest_of : simpl never.
Arguments create_key : simpl never.

(* --------------------------------------------------------------- *)
(** *** Facts about strings and dictionaries *)

Lemma prefix_app_l (a b s : string) :
  String.prefix (a ++ b) s = true -> String.prefix a s = true.
Proof.
  revert s; induction a as [|c a IH]; intros s H.
  - destruct s; reflexivity.
  - destruct s as [|d s]; simpl in *; [discriminate|].
    destruct (ascii_dec c d); [apply IH; exact H | discriminate].
Qed.




Section Dict.
Variable V : Type.
Implicit Types (d a b : dict V) (k : string) (v : V).

Lemma dict_keys_set d k v :
  dict_keys (dict_set d k v) =
  if in_dec string_dec k (dict_keys d) then dict_keys d
  else (dict_keys d ++ [k])%list.
Proof.
  induction d as [|[k' v'] d IH]; simpl; [reflexivity|].
  destruct (String.eqb_spec k k') as [->|Hne].
  - destruct (string_dec k' k'); [reflexivity|congruence].
  - simpl. rewrite IH.
    destruct (string_dec k' k); [congruence|].
    destruct (in_dec string_dec k (dict_keys d)); reflexivity.
Qed.

Lemma dict_wf_set d k v : dict_wf d -> dict_wf (dict_set d k v).
Proof.
  unfold dict_wf. rewrite dict_keys_set.
  destruct (in_dec string_dec k (dict_keys d)) as [|Hn]; [tauto|].
  intros Hd. apply NoDup_rev in Hd. rewrite <- (rev_involutive (_ ++ _)).
  apply NoDup_rev. rewrite rev_app_distr. simpl.
  constructor; [rewrite <- in_rev; exact Hn | exact Hd].
Qed.

Lemma dict_wf_merge a b : dict_wf a -> dict_wf (dict_merge a b).
Proof.
  unfold dict_merge. revert a.
  induction b as [|[k v] b IH]; intros a Ha; simpl; [exact Ha|].
  apply IH, dict_wf_set, Ha.
Qed.

Lemma dict_set_In d k v : In (k, v) (dict_set d k v).
Proof.
  induction d as [|[k' v'] d IH]; simpl; [left; reflexivity|].
  destruct (String.eqb_spec k k') as [->|Hne];
    [left; reflexivity | right; exact IH].
Qed.

Lemma dict_set_In_other d k v k' v' :
  k <> k' -> In (k, v) d -> In (k, v) (dict_set d k' v').
Proof.
  intros Hne. induction d as [|[k0 v0] d IH]; simpl; [tauto|].
  intros [E|Hin].
  - inversion E; subst.
    destruct (String.eqb_spec k' k); [congruence | left; reflexivity].
  - destruct (String.eqb_spec k' k0); right; [exact Hin | exact (IH Hin)].
Qed.

Lemma dict_set_In_inv d k v k' v' :
  In (k, v) (dict_set d k' v') -> (k = k' /\ v = v') \/ In (k, v) d.
Proof.
  induction d as [|[k0 v0] d IH]; simpl.
  - intros [E|[]]. inversion E; auto.
  - destruct (String.eqb_spec k' k0) as [->|Hne]; simpl.
    + intros [E|Hin]; [inversion E; auto | auto].
    + intros [E|Hin]; [auto|]. destruct (IH Hin); auto.
Qed.

Lemma dict_merge_In_l a b k v :
  ~ In k (dict_keys b) -> In (k, v) a -> In (k, v) (dict_merge a b).
Proof.
  unfold dict_merge. revert a.
  induction b as [|[k' v'] b IH]; intros a Hn Hin; simpl; [exact Hin|].
  simpl in Hn. apply IH; [tauto|].
  apply dict_set_In_other; [intros E; apply Hn; auto | exact Hin].
Qed.

(** Every item of a well-formed [b] is an item of [{**a, **b}]. *)
Lemma dict_merge_In_r a b k v :
  dict_wf b -> In (k, v) b -> In (k, v) (dict_merge a b).
Proof.
  unfold dict_wf. revert a.
  induction b as [|[k' v'] b IH]; intros a Hwf Hin; [destruct Hin|].
  simpl in Hwf. inversion Hwf as [|? ? Hn Hwf']; subst.
  destruct Hin as [E|Hin].
  - inversion E; subst.
    change (In (k, v) (dict_merge (dict_set a k v) b)).
    apply dict_merge_In_l; [exact Hn | apply dict_set_In].
  - apply (IH (dict_set a k' v') Hwf' Hin).
Qed.

Lemma dict_get_In d k v : dict_get d k = Some v -> In (k, v) d.
Proof.
  induction d as [|[k' v'] d IH]; simpl; [discriminate|].
  destruct (String.eqb_spec k k') as [->|Hne].
  - intros E; inversion E; auto.
  - auto.
Qed.

Lemma dict_In_get d k v : dict_wf d -> In (k, v) d -> dict_get d k = Some v.
Proof.
  unfold dict_wf.
  induction d as [|[k' v'] d IH]; simpl; intros Hwf Hin; [destruct Hin|].
  inversion Hwf as [|? ? Hn Hwf']; subst.
  destruct Hin as [E|Hin].
  - inversion E; subst. rewrite String.eqb_refl. reflexivity.
  - destruct (String.eqb_spec k k') as [->|Hne]; [|auto].
    exfalso. apply Hn. apply (in_map fst) in Hin. exact Hin.
Qed.

Lemma dict_wf_unique d k v v' :
  dict_wf d -> In (k, v) d -> In (k, v') d -> v = v'.
Proof.
  intros Hwf H1 H2.
  apply (dict_In_get _ _ _ Hwf) in H1. apply (dict_In_get _ _ _ Hwf) in H2.
  congruence.
Qed.

End Dict.


(* --------------------------------------------------------------- *)
(** *** The request function *)

Lemma request_rejected url data params headers method data_as_json
    error_count w :
  begins_with_http url = false ->
  request url data params headers method data_as_json error_count w
  = (Raised guard_error, w).
Proof. intros H. unfold request. rewrite H. reflexivity. Qed.

Lemma request_sent url data params headers method data_as_json
    error_count w :
  begins_with_http url = true ->
  let r := httprequest_of url data params headers method data_as_json in
  request url data params headers method data_as_json error_count w
  = (response_of (server (network w) r) error_count, sent w r).
Proof.
  intros H r. unfold request. rewrite H. simpl. unfold urlopen. fold r.
  destruct (server (network w) r); reflexivity.
Qed.

Lemma has_http_scheme_begins url :
  has_http_scheme url = true -> begins_with_http url = true.
Proof.
  unfold has_http_scheme, begins_with_http, PyStr.startswith.
  intros H. apply orb_true_iff in H. destruct H as [H|H].
  - exact (prefix_app_l "http" "://" _ H).
  - exact (prefix_app_l "http" "s://" _ H).
Qed.

(** C7 (amended).  [Response.json] returns the value [json.loads] parses
    from the body when [json.loads] returns, and the empty string when
    [json.loads] raises [JSONDecodeError]; any other exception of
    [json.loads] is not caught and is raised by the accessor. *)
Theorem json_returns_or_propagates (self : Response) :
  (forall v, json_loads (body self) = Returned v -> json self = Returned v)
  /\ (json_loads (body self) = Raised JSONDecodeError ->
      json self = Returned (PStr ""))
  /\ (forall e, json_loads (body self) = Raised e -> e <> JSONDecodeError ->
      json self = Raised e)
  /\ (json_returns (body self) <-> exists v, json self = Returned v).
Proof.
  unfold json, json_returns.
  destruct (json_loads (body self)) as [v|e].
  - split; [congruence|]. split; [discriminate|]. split; [discriminate|].
    split; [eauto | discriminate].
  - split; [discriminate|]. split; [intros E; inversion E; reflexivity|].
    split.
    + intros e' E Hne. inversion E; subst.
      destruct e'; try reflexivity. contradiction.
    + split.
      * intros H. rewrite (H e eq_refl). eauto.
      * intros (v & Hv) e' E. inversion E; subst.
        destruct e'; try discriminate Hv. reflexivity.
Qed.

Lemma prefix_cons a s1 b s2 :
  String.prefix (String a s1) (String b s2)
  = Ascii.eqb a b && String.prefix s1 s2.
Proof.
  simpl. destruct (ascii_dec a b) as [->|Hne].
  - rewrite Ascii.eqb_refl. reflexivity.
  - apply Ascii.eqb_neq in Hne. rewrite Hne. reflexivity.
Qed.

Lemma lower_char_h c :
  Ascii.eqb "h" (PyStr.lower_char c) = true <-> (c = "h" \/ c = "H")%char.
Proof.
  destruct c as [[] [] [] [] [] [] [] []]; simpl;
    split; intros H; try discriminate H; auto;
    destruct H as [H|H]; discriminate H.
Qed.

Lemma lower_char_t c :
  Ascii.eqb "t" (PyStr.lower_char c) = true <-> (c = "t" \/ c = "T")%char.
Proof.
  destruct c as [[] [] [] [] [] [] [] []]; simpl;
    split; intros H; try discriminate H; auto;
    destruct H as [H|H]; discriminate H.
Qed.

Lemma lower_char_p c :
  Ascii.eqb "p" (PyStr.lower_char c) = true <-> (c = "p" \/ c = "P")%char.
Proof.
  destruct c as [[] [] [] [] [] [] [] []]; simpl;
    split; intros H; try discriminate H; auto;
    destruct H as [H|H]; discriminate H.
Qed.

(** The guard passes exactly the texts that start with the four letters. *)
Lemma begins_with_http_prefixed url :
  begins_with_http url = true <-> http_prefixed url.
Proof.
  unfold begins_with_http, PyStr.startswith, PyStr.casefold, http_prefixed.
  destruct url as [|c1 [|c2 [|c3 [|c4 rest]]]]; simpl PyStr.map_chars.
  - split; [discriminate | intros (? & ? & ? & ? & ? & E & _); discriminate E].
  - rewrite prefix_cons. simpl String.prefix. rewrite andb_false_r.
    split; [discriminate | intros (? & ? & ? & ? & ? & E & _); discriminate E].
  - rewrite !prefix_cons. simpl String.prefix. rewrite !andb_false_r.
    split; [discriminate | intros (? & ? & ? & ? & ? & E & _); discriminate E].
  - rewrite !prefix_cons. simpl String.prefix. rewrite !andb_false_r.
    split; [discriminate | intros (? & ? & ? & ? & ? & E & _); discriminate E].
  - rewrite !prefix_cons.
    replace (String.prefix "" (PyStr.map_chars PyStr.lower_char rest))
      with true by (destruct rest; reflexivity).
    rewrite andb_true_r.
    rewrite !andb_true_iff, lower_char_h, !lower_char_t, lower_char_p.
    split.
    + intros (H1 & H2 & H3 & H4). exists c1, c2, c3, c4, rest. auto.
    + intros (d1 & d2 & d3 & d4 & r & E & H1 & H2 & H3 & H4).
      inversion E; subst. auto.
Qed.

(** C2 (amended).  The guard of [request] rejects by prefix, not by scheme.
    A text that does not start with the four letters [http], in either
    case, makes [request] raise [URLError] with the world untouched: nothing
    is passed to urllib.  A text that starts with them passes the guard: the
    request built from the arguments is passed to urllib and [request] ends
    as that call ends, never with the guard's error.  Every URL whose scheme
    is [http] or [https], in any letter case, starts with the four
    letters; so do texts with another scheme, such as [httpx://evil/]. *)
Theorem request_rejects_by_prefix url data params headers method data_as_json
    error_count w :
  (~ http_prefixed url ->
     request url data params headers method data_as_json error_count w
     = (Raised guard_error, w))
  /\ (http_prefixed url ->
        let r := httprequest_of url data params headers method data_as_json in
        request url data params headers method data_as_json error_count w
        = (response_of (server (network w) r) error_count, sent w r)
        /\ network (sent w r) = (network w ++ [r])%list
        /\ response_of (server (network w) r) error_count
           <> Raised guard_error)
  /\ (has_http_scheme url = true -> http_prefixed url)
  /\ http_prefixed "httpx://evil/"
  /\ has_http_scheme "httpx://evil/" = false.
Proof.
  split; [|split; [|split; [|split]]].
  - intros H. apply request_rejected.
    destruct (begins_with_http url) eqn:E; [|reflexivity].
    exfalso. apply H, begins_with_http_prefixed, E.
  - intros H r. apply begins_with_http_prefixed in H.
    split; [apply request_sent; exact H|]. split; [reflexivity|].
    destruct (server (network w) r); simpl; discriminate.
  - intros H. apply begins_with_http_prefixed, has_http_scheme_begins, H.
  - apply begins_with_http_prefixed. reflexivity.
  - reflexivity.
Qed.



(** The request built for a GET. *)
Lemma httprequest_of_GET url data params headers method data_as_json :
  PyStr.upper method = "GET" ->
  let merged := dict_merge (or_empty params) (or_empty data) in
  httprequest_of url data params headers method data_as_json
  = {| req_url :=
         match merged with
         | [] => url
         | _ :: _ => (url ++ "?" ++ urlencode merged true "/")%string
         end;
       req_data := None;
       req_headers :=
         dict_merge [("Accept", "application/json")] (or_empty headers);
       req_method := "GET" |}.
Proof.
  intros H merged. unfold httprequest_of. rewrite H. simpl. fold merged.
  destruct merged; reflexivity.
Qed.



(** C10.  For a GET where [params] and [data] both define the key [k], the
    query string is the encoding of the merged mapping, which holds [k]
    once, with the value from [data]. *)
Theorem get_data_overrides_params url data params headers method
    data_as_json k v_params v_data :
  PyStr.upper method = "GET" ->
  dict_wf (or_empty params) ->
  dict_wf (or_empty data) ->
  dict_get (or_empty params) k = Some v_params ->
  dict_get (or_empty data) k = Some v_data ->
  let merged := dict_merge (or_empty params) (or_empty data) in
  let r := httprequest_of url data params headers method data_as_json in
  req_url r = (url ++ "?" ++ urlencode merged true "/")%string
  /\ dict_wf merged
  /\ dict_get merged k = Some v_data
  /\ (forall v, In (k, v) merged -> v = v_data).
Proof.
  intros Hm Hwp Hwd Hp Hd merged r.
  assert (Hwf : dict_wf merged) by (apply dict_wf_merge; exact Hwp).
  assert (Hin : In (k, v_data) merged)
    by (apply dict_merge_In_r; [exact Hwd | apply dict_get_In; exact Hd]).
  split.
  - unfold r. rewrite httprequest_of_GET by exact Hm. simpl. fold merged.
    destruct merged; [destruct Hin | reflexivity].
  - split; [exact Hwf|]. split; [apply dict_In_get; assumption|].
    intros v Hv. apply (dict_wf_unique _ merged k v v_data Hwf Hv Hin).
Qed.


(* --------------------------------------------------------------- *)
(** *** The eligible projects *)

Lemma from_end_nth {A} (l : list A) (n : nat) (d : A) :
  n - 1 < List.length l ->
  Py.from_end l n = Returned (nth (n - 1) (rev l) d).
Proof.
  intros H. unfold Py.from_end.
  rewrite <- length_rev in H.
  rewrite (nth_error_nth' (rev l) d H). reflexivity.
Qed.

Lemma eligible_projects_step ORG project rest project_names :
  listed_project project ->
  eligible_projects ORG (project :: rest) project_names
  = eligible_projects ORG rest
      (if eligible_spec ORG project
       then project_names ++ [segment_from_end project 1]
       else project_names)%list.
Proof.
  intros (vcs_url & followers & Hu & Hf & Hlen).
  unfold eligible_spec, has_followers, segment_from_end, vcs_url_segments.
  simpl. rewrite Hu, Hf. simpl.
  rewrite (from_end_nth _ 1 EmptyString) by (simpl; lia).
  rewrite (from_end_nth _ 2 EmptyString) by (simpl; lia).
  simpl. destruct followers as [|f followers]; [reflexivity|].
  replace (Z.of_nat (List.length (f :: followers)) >? 0)%Z with true
    by (symmetry; apply Z.gtb_lt; simpl List.length; lia).
  simpl. destruct (String.eqb _ ORG); reflexivity.
Qed.

Lemma eligible_projects_filter ORG projects project_names :
  Forall listed_project projects ->
  eligible_projects ORG projects project_names
  = Returned (project_names
              ++ map (fun p => segment_from_end p 1)
                   (filter (eligible_spec ORG) projects))%list.
Proof.
  intros H. revert project_names.
  induction H as [|project rest Hp _ IH]; intros project_names.
  - simpl. rewrite app_nil_r. reflexivity.
  - rewrite eligible_projects_step by exact Hp. rewrite IH. simpl.
    destruct (eligible_spec ORG project); simpl;
      [rewrite <- app_assoc|]; reflexivity.
Qed.

(** C5.  Over a listing of well-formed projects the first loop of [main]
    returns, in the order of the listing, the last URL segment of exactly
    the projects that have at least one follower and whose second-to-last
    URL segment is the organization, compared as strings. *)
Theorem eligible_projects_are_followed_and_in_the_organization ORG projects :
  Forall listed_project projects ->
  eligible_projects ORG projects []
  = Returned (map (fun p => segment_from_end p 1)
                (filter (eligible_spec ORG) projects))
  /\ (forall project,
        In project projects ->
        In project (filter (eligible_spec ORG) projects)
        <-> (has_followers project = true
             /\ segment_from_end project 2 = ORG)).
Proof.
  intros H. split.
  - apply (eligible_projects_filter ORG projects [] H).
  - intros project Hin. rewrite filter_In. unfold eligible_spec.
    rewrite andb_true_iff, String.eqb_eq. tauto.
Qed.


(* --------------------------------------------------------------- *)
(** *** The rotation loop *)

Lemma checkout_key_url_http VCS ORG project :
  begins_with_http (checkout_key_url VCS ORG project) = true.
Proof. reflexivity. Qed.

Lemma json_json_value self :
  json_returns (body self) -> json self = Returned (json_value (body self)).
Proof.
  unfold json, json_value, json_returns. intros H.
  destruct (json_loads (body self)) as [v|e]; [reflexivity|].
  rewrite (H e eq_refl). reflexivity.
Qed.

(** When [json.loads] raises anything else, so does the accessor. *)
Lemma json_raises self :
  ~ json_returns (body self) ->
  exists e, e <> JSONDecodeError /\ json_loads (body self) = Raised e
            /\ json self = Raised e.
Proof.
  unfold json, json_returns. intros H.
  destruct (json_loads (body self)) as [v|e]; [exfalso; apply H; discriminate|].
  exists e. assert (Hne : e <> JSONDecodeError).
  { intros ->. apply H. intros e' E. inversion E. reflexivity. }
  split; [exact Hne|]. split; [reflexivity|].
  destruct e; try reflexivity. contradiction.
Qed.

Lemma json_returns_dec text : json_returns text \/ ~ json_returns text.
Proof.
  unfold json_returns. destruct (json_loads text) as [v|e].
  - left. discriminate.
  - destruct e; try (right; intros H; specialize (H _ eq_refl); discriminate).
    left. intros e E. inversion E. reflexivity.
Qed.

(** A subscript that succeeds on the value shows that the accessor returned
    it: the stand-in for a failed decoding is the empty string. *)
Lemma getitem_json_value_returns text key x :
  Py.getitem (json_value text) key = Returned x -> json_returns text.
Proof.
  unfold json_value, json_returns. intros H e E. rewrite E in H.
  discriminate H.
Qed.

Lemma contains_projects_returns text :
  Py.contains (json_value text) "projects" = Returned true ->
  json_returns text.
Proof.
  unfold json_value, json_returns. intros H e E. rewrite E in H.
  discriminate H.
Qed.

Lemma for_each_cons {A} (x : A) (l : list A) (loop_body : A -> M unit) w :
  for_each (x :: l) loop_body w
  = match loop_body x w with
    | (Returned _, w') => for_each l loop_body w'
    | (Raised e, w') => (Raised e, w')
    end.
Proof. reflexivity. Qed.

(** The loop body once the listing call has answered. *)
Lemma rotate_project_listed headers VCS ORG project w hdrs code text :
  server (network w) (listing_request headers VCS ORG project)
  = HTTPResponse hdrs code text ->
  json_returns text ->
  let w1 := sent w (listing_request headers VCS ORG project) in
  rotate_project headers VCS ORG project w
  = match Py.getitem (json_value text) "items" with
    | Raised e => (Raised e, w1)
    | Returned key_info =>
        match Py.len key_info with
        | Raised e => (Raised e, w1)
        | Returned n =>
            if (n =? 0)%Z then (Returned tt, w1)
            else
              match Py.getitem0 key_info with
              | Raised e => (Raised e, w1)
              | Returned key_info =>
                  match preferred_ssh_rsa key_info with
                  | Raised e => (Raised e, w1)
                  | Returned true =>
                      create_key headers VCS ORG project (json_value text)
                        key_info w1
                  | Returned false =>
                      print (project
                             ++ " prefered key is not ssh-rsa, no action taken.")
                        w1
                  end
              end
        end
    end.
Proof.
  intros Hs Hj w1. unfold rotate_project, get. simpl bind.
  rewrite request_sent by apply checkout_key_url_http.
  fold (listing_request headers VCS ORG project). rewrite Hs.
  fold w1. simpl.
  rewrite json_json_value by exact Hj. simpl.
  destruct (Py.getitem (json_value text) "items") as [key_info|e];
    [|reflexivity].
  destruct (Py.len key_info) as [n|e]; [|reflexivity].
  destruct (n =? 0)%Z; [reflexivity|].
  destruct (Py.getitem0 key_info) as [k|e]; [|reflexivity].
  destruct (preferred_ssh_rsa k) as [[|]|e]; reflexivity.
Qed.


(** The key-creation branch, up to the answer of the creation call.  [w2]
    is the world after the three lines printed and the write into
    [old_keys_<org>.txt]. *)
Lemma create_key_run headers VCS ORG project ssh_keys_resp key_info
    ssh_key_type w1 :
  Py.getitem key_info "type" = Returned ssh_key_type ->
  let p := creation_request headers VCS ORG project ssh_key_type in
  let url := checkout_key_url VCS ORG project in
  exists w2,
    network w2 = network w1
    /\ files w2
       = (files w1
          ++ [(("old_keys_" ++ ORG ++ ".txt")%string,
               (py_str ssh_keys_resp ++ newline)%string)])%list
    /\ create_key headers VCS ORG project ssh_keys_resp key_info w1
       = match response_of (server (network w1) p) 0 with
         | Raised e => (Raised e, sent w2 p)
         | Returned checkout_key_resp =>
             if (status checkout_key_resp =? 403)%Z
             then print ("skipping project: " ++ project
                         ++ " as unable to create new key. url: " ++ url)
                    (sent w2 p)
             else if (error_count checkout_key_resp >? 0)%Z
             then (Raised (PyException
                             (error_creating_new_checkout_key
                                checkout_key_resp url)), sent w2 p)
             else
               match json checkout_key_resp with
               | Raised e => (Raised e, sent w2 p)
               | Returned new_key =>
                   append_to_file ("new_keys_" ++ ORG ++ ".txt")
                     (project ++ " new prefered key: " ++ py_str new_key
                      ++ " " ++ newline) (sent w2 p)
               end
         end.
Proof.
  intros Ht p url.
  destruct (create_key headers VCS ORG project ssh_keys_resp key_info w1)
    as [res wf] eqn:E.
  unfold create_key, post in E. simpl in E. rewrite Ht in E.
  rewrite request_sent in E by apply checkout_key_url_http.
  fold (creation_request headers VCS ORG project ssh_key_type) in E.
  fold p in E. simpl network in E.
  match type of E with context [sent ?w p] => exists w end.
  split; [reflexivity|]. split; [reflexivity|].
  rewrite <- E. clear E.
  destruct (response_of (server (network w1) p) 0) as [resp|e];
    [|reflexivity].
  destruct (status resp =? 403)%Z; [reflexivity|].
  destruct (error_count resp >? 0)%Z; [reflexivity|].
  destruct (json resp); reflexivity.
Qed.


Lemma preferred_ssh_rsa_typed key_info preferred public_key :
  Py.getitem key_info "preferred" = Returned (PBool preferred) ->
  Py.getitem key_info "public_key" = Returned (PStr public_key) ->
  preferred_ssh_rsa key_info
  = Returned (preferred && PyStr.startswith public_key "ssh-rsa").
Proof.
  intros Hp Hk. unfold preferred_ssh_rsa. simpl. rewrite Hp. simpl.
  destruct preferred; [rewrite Hk|]; reflexivity.
Qed.

Lemma rotate_project_keys_listed headers VCS ORG project w text key_info
    others preferred public_key ssh_key_type :
  keys_listed headers VCS ORG project w text key_info others preferred
    public_key ssh_key_type ->
  let w1 := sent w (listing_request headers VCS ORG project) in
  rotate_project headers VCS ORG project w
  = if preferred && PyStr.startswith public_key "ssh-rsa"
    then create_key headers VCS ORG project (json_value text) key_info w1
    else print (project ++ " prefered key is not ssh-rsa, no action taken.")
           w1.
Proof.
  intros ((hdrs & code & Hs) & Hi & Hp & Hk & _) w1.
  rewrite (rotate_project_listed _ _ _ _ _ _ _ _ Hs
             (getitem_json_value_returns _ _ _ Hi)).
  rewrite Hi.
  simpl Py.len. cbv iota.
  replace (Z.of_nat (List.length (key_info :: others)) =? 0)%Z with false
    by (symmetry; apply Z.eqb_neq; simpl List.length; lia).
  simpl Py.getitem0. cbv iota.
  rewrite (preferred_ssh_rsa_typed _ _ _ Hp Hk).
  destruct (preferred && _); reflexivity.
Qed.

Lemma creation_request_fields headers VCS ORG project ssh_key_type :
  let p := creation_request headers VCS ORG project ssh_key_type in
  req_method p = "POST"
  /\ req_url p = checkout_key_url VCS ORG project
  /\ req_data p = Some (json_dumps (PDict (payload_for ssh_key_type))).
Proof.
  unfold creation_request, payload_for.
  destruct (Py.eq_str ssh_key_type "github-user-key");
    repeat split; unfold httprequest_of; simpl; reflexivity.
Qed.

(** The requests one pass of the loop body hands to [urlopen]. *)
Lemma rotate_project_requests headers VCS ORG project w text key_info
    others preferred public_key ssh_key_type :
  keys_listed headers VCS ORG project w text key_info others preferred
    public_key ssh_key_type ->
  let g := listing_request headers VCS ORG project in
  let p := creation_request headers VCS ORG project ssh_key_type in
  network (snd (rotate_project headers VCS ORG project w))
  = (network w
     ++ g :: (if preferred && PyStr.startswith public_key "ssh-rsa"
              then [p] else []))%list.
Proof.
  intros H g p.
  rewrite (rotate_project_keys_listed _ _ _ _ _ _ _ _ _ _ _ H). fold g.
  destruct H as (_ & _ & _ & _ & Ht).
  destruct (preferred && _); [|reflexivity].
  destruct (create_key_run headers VCS ORG project (json_value text)
              key_info ssh_key_type (sent w g) Ht) as (w2 & Hn & _ & E).
  rewrite E. fold p.
  assert (Hs : network (sent w2 p) = (network w ++ [g; p])%list).
  { simpl. rewrite Hn. simpl. rewrite <- app_assoc. reflexivity. }
  destruct (response_of _ 0) as [resp|e]; [|exact Hs].
  destruct (status resp =? 403)%Z; [exact Hs|].
  destruct (error_count resp >? 0)%Z; [exact Hs|].
  destruct (json resp); exact Hs.
Qed.

(** C1.  When the listing of a project answers with a non-empty key list,
    the creation POST is handed to [urlopen] exactly when the first key is
    preferred and its public key starts with [ssh-rsa].  The requests made
    are fixed by the first key alone, whatever keys follow it; when the
    test fails the only request is the listing, no file is written and the
    loop body returns. *)
Theorem rotation_is_decided_by_the_first_key headers VCS ORG project w text
    key_info others preferred public_key ssh_key_type :
  keys_listed headers VCS ORG project w text key_info others preferred
    public_key ssh_key_type ->
  let due := preferred && PyStr.startswith public_key "ssh-rsa" in
  let g := listing_request headers VCS ORG project in
  let p := creation_request headers VCS ORG project ssh_key_type in
  let w' := snd (rotate_project headers VCS ORG project w) in
  network w' = (network w ++ g :: (if due then [p] else []))%list
  /\ req_method g = "GET"
  /\ req_method p = "POST"
  /\ ((exists r, In r (skipn (List.length (network w)) (network w'))
                 /\ req_method r = "POST")
      <-> due = true)
  /\ (due = false ->
      files w' = files w
      /\ fst (rotate_project headers VCS ORG project w) = Returned tt).
Proof.
  intros H due g p w'.
  assert (Hnet := rotate_project_requests _ _ _ _ _ _ _ _ _ _ _ H).
  assert (Hrun := rotate_project_keys_listed _ _ _ _ _ _ _ _ _ _ _ H).
  cbv zeta in Hnet, Hrun. fold due in Hnet, Hrun. fold g in Hnet, Hrun.
  fold p in Hnet. fold w' in Hnet.
  assert (Hp : req_method p = "POST")
    by apply (creation_request_fields headers VCS ORG project ssh_key_type).
  split; [exact Hnet|]. split; [reflexivity|]. split; [exact Hp|].
  split.
  - rewrite Hnet, skipn_app, skipn_all, Nat.sub_diag. simpl.
    destruct due; split.
    + reflexivity.
    + intros _. exists p. split; [right; left; reflexivity | exact Hp].
    + intros (r & [<-|[]] & Hr). discriminate Hr.
    + discriminate.
  - intros Hd. unfold w'. rewrite Hrun, Hd. split; reflexivity.
Qed.

Lemma eq_str_true v s : Py.eq_str v s = true <-> v = PStr s.
Proof.
  destruct v; simpl; try (split; [discriminate | intros E; discriminate E]).
  rewrite String.eqb_eq. split; [congruence | intros E; inversion E; auto].
Qed.

(** C4.  When a key is replaced, the creation POST carries the JSON text
    of [{"type": t}], where [t] is [user-key] if the type of the legacy key
    is [github-user-key] and [deploy-key] for every other type. *)
Theorem replacement_key_type_follows_legacy_type headers VCS ORG project w
    text key_info others public_key ssh_key_type :
  keys_listed headers VCS ORG project w text key_info others true
    public_key ssh_key_type ->
  PyStr.startswith public_key "ssh-rsa" = true ->
  let g := listing_request headers VCS ORG project in
  let p := creation_request headers VCS ORG project ssh_key_type in
  let new_type :=
    if Py.eq_str ssh_key_type "github-user-key"
    then "user-key" else "deploy-key" in
  network (snd (rotate_project headers VCS ORG project w))
  = (network w ++ [g; p])%list
  /\ req_method p = "POST"
  /\ req_data p = Some (json_dumps (PDict [("type", PStr new_type)]))
  /\ (ssh_key_type = PStr "github-user-key" -> new_type = "user-key")
  /\ (ssh_key_type <> PStr "github-user-key" -> new_type = "deploy-key").
Proof.
  intros H Hk g p new_type.
  assert (Hnet := rotate_project_requests _ _ _ _ _ _ _ _ _ _ _ H).
  cbv zeta in Hnet. rewrite Hk in Hnet.
  destruct (creation_request_fields headers VCS ORG project ssh_key_type)
    as (Hm & _ & Hd).
  split; [exact Hnet|]. split; [exact Hm|]. split.
  - fold p in Hd. rewrite Hd. unfold payload_for, new_type.
    destruct (Py.eq_str ssh_key_type "github-user-key"); reflexivity.
  - unfold new_type. split.
    + intros ->. reflexivity.
    + intros Hne.
      destruct (Py.eq_str ssh_key_type "github-user-key") eqn:E;
        [apply eq_str_true in E; contradiction | reflexivity].
Qed.

(** C3.  When the creation POST is answered with status 403, the loop body
    returns without writing the new-key log and the loop goes on with the
    remaining projects.  When the answer has a positive error counter and
    a status other than 403, the loop ends with the script's exception and
    the remaining projects are not visited. *)
Theorem creation_403_is_skipped_other_errors_abort headers VCS ORG project
    projects w text key_info others public_key ssh_key_type
    checkout_key_resp :
  keys_listed headers VCS ORG project w text key_info others true
    public_key ssh_key_type ->
  PyStr.startswith public_key "ssh-rsa" = true ->
  let g := listing_request headers VCS ORG project in
  let p := creation_request headers VCS ORG project ssh_key_type in
  let url := checkout_key_url VCS ORG project in
  let run := rotate_project headers VCS ORG project w in
  response_of (server (network w ++ [g])%list p) 0
  = Returned checkout_key_resp ->
  (status checkout_key_resp = 403%Z ->
     fst run = Returned tt
     /\ rotate_all headers VCS ORG (project :: projects) w
        = rotate_all headers VCS ORG projects (snd run)
     /\ files (snd run)
        = (files w
           ++ [(("old_keys_" ++ ORG ++ ".txt")%string,
                (py_str (json_value text) ++ newline)%string)])%list)
  /\ (status checkout_key_resp <> 403%Z ->
      (error_count checkout_key_resp > 0)%Z ->
      rotate_all headers VCS ORG (project :: projects) w
      = (Raised (PyException
                   (error_creating_new_checkout_key checkout_key_resp url)),
         snd run)
      /\ network (snd run) = (network w ++ [g; p])%list).
Proof.
  intros H Hk g p url run Hresp.
  assert (Hnet := rotate_project_requests _ _ _ _ _ _ _ _ _ _ _ H).
  assert (Hrun := rotate_project_keys_listed _ _ _ _ _ _ _ _ _ _ _ H).
  cbv zeta in Hnet, Hrun. rewrite Hk in Hnet, Hrun. simpl andb in Hnet, Hrun.
  cbv iota in Hnet, Hrun. fold g in Hnet, Hrun. fold p in Hnet.
  fold run in Hnet, Hrun.
  destruct H as (_ & _ & _ & _ & Ht).
  destruct (create_key_run headers VCS ORG project (json_value text)
              key_info ssh_key_type (sent w g) Ht) as (w2 & Hn & Hf & E).
  fold p in E. simpl network in E. rewrite Hresp in E. fold url in E.
  rewrite <- Hrun in E.
  unfold rotate_all. rewrite for_each_cons. fold run.
  split.
  - intros Hs. rewrite Hs in E. simpl Z.eqb in E. cbv iota in E.
    rewrite E. simpl. repeat split. exact Hf.
  - intros Hs He.
    apply Z.eqb_neq in Hs. rewrite Hs in E.
    replace (error_count checkout_key_resp >? 0)%Z with true in E
      by (symmetry; apply Z.gtb_lt; lia).
    rewrite E. simpl. split; [reflexivity|].
    rewrite Hn. simpl. rewrite <- app_assoc. reflexivity.
Qed.


Local Arguments String.append : simpl never.

(** [main] up to its second loop: with four arguments, a known VCS and a
    listing that decodes to projects, the run is the loop over the selected
    project names. *)
Lemma main_runs_the_loop prog token ORG vcs_input VCS PROJECT more w hdrs
    code text projects items project_names selected :
  convert_vcs vcs_input = Returned VCS ->
  let headers : dict string :=
    [("Circle-Token", token); ("Content-type", "application/json")] in
  let projects_url :=
    ("https://circleci.com/api/v1.1/organization/" ++ VCS ++ "/" ++ ORG
     ++ "/settings")%string in
  let g := httprequest_of projects_url None None (Some headers) "GET" true in
  server (network w) g = HTTPResponse hdrs code text ->
  Py.contains (json_value text) "projects" = Returned true ->
  Py.getitem (json_value text) "projects" = Returned projects ->
  Py.iter projects = Returned items ->
  eligible_projects ORG items [] = Returned project_names ->
  narrow PROJECT project_names = Returned selected ->
  main (prog :: token :: ORG :: vcs_input :: PROJECT :: more) w
  = rotate_all headers VCS ORG selected (sent w g).
Proof.
  intros Hv headers projects_url g Hs Hc Hg Hi He Hn.
  unfold main, get. simpl. rewrite Hv. simpl.
  fold headers. fold projects_url.
  rewrite request_sent by reflexivity. fold g. rewrite Hs. simpl.
  rewrite json_json_value by exact (contains_projects_returns _ Hc).
  simpl. rewrite Hc. simpl. rewrite Hg. simpl.
  rewrite Hi. simpl. rewrite He. simpl. rewrite Hn. reflexivity.
Qed.



End Properties.

(* ================================================================= *)
(** ** Further properties *)

Section Further.

Context {env : Environment}.

Arguments checkout_key_url : simpl never.
Arguments httprequest_of : simpl never.
Arguments create_key : simpl never.

(* --------------------------------------------------------------- *)
(** *** convert_vcs *)

Lemma convert_vcs_unfold vcs_input :
  convert_vcs vcs_input
  = if String.eqb vcs_input "gh" then Returned "github"
    else if String.eqb vcs_input "bb" then Returned "bitbucket"
    else if String.eqb vcs_input "github" then Returned "github"
    else if String.eqb vcs_input "bitbucket" then Returned "bitbucket"
    else Raised (PyException (invalid_vcs_provided vcs_input)).
Proof.
  unfold convert_vcs, vcs_map. simpl.
  repeat (destruct (String.eqb vcs_input _); [reflexivity|]).
  reflexivity.
Qed.

(** X1.  Whatever [convert_vcs] returns is [github] or [bitbucket], and it
    maps each of its results to itself. *)
Theorem convert_vcs_is_canonical vcs_input vcs :
  convert_vcs vcs_input = Returned vcs ->
  (vcs = "github" \/ vcs = "bitbucket") /\ convert_vcs vcs = Returned vcs.
Proof.
  rewrite convert_vcs_unfold.
  repeat (destruct (String.eqb vcs_input _);
          [intros E; inversion E; subst; split; [auto | reflexivity]|]).
  discriminate.
Qed.

(** X2.  [convert_vcs] raises, with the input in its message, exactly for
    the inputs other than [gh], [bb], [github] and [bitbucket], compared
    as they are written. *)
Theorem convert_vcs_rejects_the_rest vcs_input :
  convert_vcs vcs_input = Raised (PyException (invalid_vcs_provided vcs_input))
  <-> ~ In vcs_input ["gh"; "bb"; "github"; "bitbucket"].
Proof.
  rewrite convert_vcs_unfold. simpl.
  destruct (String.eqb_spec vcs_input "gh");
    [split; [discriminate | intros H; exfalso; apply H; auto]|].
  destruct (String.eqb_spec vcs_input "bb");
    [split; [discriminate | intros H; exfalso; apply H; auto]|].
  destruct (String.eqb_spec vcs_input "github");
    [split; [discriminate | intros H; exfalso; apply H; auto]|].
  destruct (String.eqb_spec vcs_input "bitbucket");
    [split; [discriminate | intros H; exfalso; apply H; auto 6]|].
  split; [|reflexivity]. intros _ H.
  repeat (destruct H as [H|H]; [congruence|]). exact H.
Qed.

(* --------------------------------------------------------------- *)
(** *** The request that [request] builds *)

Lemma lower_upper_char c :
  PyStr.lower_char (PyStr.upper_char c) = PyStr.lower_char c.
Proof. destruct c as [[] [] [] [] [] [] [] []]; reflexivity. Qed.

Lemma lower_lower_char c :
  PyStr.lower_char (PyStr.lower_char c) = PyStr.lower_char c.
Proof. destruct c as [[] [] [] [] [] [] [] []]; reflexivity. Qed.

Lemma map_chars_compose f g h s :
  (forall c, f (g c) = h c) ->
  PyStr.map_chars f (PyStr.map_chars g s) = PyStr.map_chars h s.
Proof. intros H. induction s; simpl; [reflexivity | rewrite H, IHs; reflexivity]. Qed.

(** X3.  The guard of [request] does not depend on the letter case of the
    URL: upper-casing or case-folding the URL leaves its verdict unchanged. *)
Theorem guard_ignores_letter_case url :
  begins_with_http (PyStr.upper url) = begins_with_http url
  /\ begins_with_http (PyStr.casefold url) = begins_with_http url.
Proof.
  unfold begins_with_http, PyStr.casefold, PyStr.upper. split.
  - rewrite (map_chars_compose _ _ PyStr.lower_char url lower_upper_char).
    reflexivity.
  - rewrite (map_chars_compose _ _ PyStr.lower_char url lower_lower_char).
    reflexivity.
Qed.

(** Every field of the request built, by cases on the method and on the
    emptiness of the query and of the body data. *)
Lemma httprequest_of_fields url data params headers method data_as_json :
  let is_get := String.eqb (PyStr.upper method) "GET" in
  let query :=
    if is_get then dict_merge (or_empty params) (or_empty data)
    else or_empty params in
  let body_data := if is_get then [] else or_empty data in
  let base :=
    dict_merge [("Accept", "application/json")] (or_empty headers) in
  httprequest_of url data params headers method data_as_json
  = {| req_url :=
         match query with
         | [] => url
         | _ :: _ => (url ++ "?" ++ urlencode query true "/")%string
         end;
       req_data :=
         match body_data with
         | [] => None
         | _ :: _ =>
             Some (if data_as_json then json_dumps (PDict body_data)
                   else urlencode body_data false "")
         end;
       req_headers :=
         match body_data with
         | [] => base
         | _ :: _ =>
             if data_as_json
             then dict_set base "Content-Type"
                    "application/json; charset=UTF-8"
             else base
         end;
       req_method := PyStr.upper method |}.
Proof.
  unfold httprequest_of.
  destruct (String.eqb (PyStr.upper method) "GET"); simpl.
  - destruct (dict_merge (or_empty params) (or_empty data)); reflexivity.
  - destruct (or_empty params); destruct (or_empty data);
      destruct data_as_json; reflexivity.
Qed.

(** Lookup after an assignment, and after a merge. *)
Lemma dict_get_set {V} (d : dict V) k v k' :
  dict_get (dict_set d k v) k'
  = if String.eqb k' k then Some v else dict_get d k'.
Proof.
  induction d as [|[k0 v0] d IH]; simpl; [reflexivity|].
  destruct (String.eqb_spec k k0) as [->|Hne]; simpl.
  - destruct (String.eqb k' k0); reflexivity.
  - rewrite IH. destruct (String.eqb_spec k' k0) as [->|Hne'];
      [|reflexivity].
    destruct (String.eqb_spec k0 k); [congruence | reflexivity].
Qed.

Lemma dict_get_absent {V} (d : dict V) k :
  ~ In k (dict_keys d) -> dict_get d k = None.
Proof.
  induction d as [|[k0 v0] d IH]; simpl; [reflexivity|]. intros H.
  destruct (String.eqb_spec k k0) as [->|Hne]; [exfalso; auto | auto].
Qed.

Lemma dict_get_merge {V} (a b : dict V) k :
  dict_wf b ->
  dict_get (dict_merge a b) k
  = match dict_get b k with Some v => Some v | None => dict_get a k end.
Proof.
  unfold dict_wf, dict_merge. revert a.
  induction b as [|[k0 v0] b IH]; intros a Hwf; simpl; [reflexivity|].
  inversion Hwf as [|? ? Hn Hwf']; subst.
  rewrite (IH _ Hwf'). rewrite dict_get_set.
  destruct (String.eqb_spec k k0) as [->|Hne]; [|reflexivity].
  rewrite (dict_get_absent b k0 Hn). reflexivity.
Qed.

(** The merge of a one-item dictionary with another: the item stays first,
    with the other's value for its key if it has one, and the other's
    remaining items follow in their order. *)
Lemma dict_merge_one_aux {V} (k : string) (b : dict V) :
  forall (v : V) (acc : dict V),
    NoDup (dict_keys b) ->
    ~ In k (dict_keys acc) ->
    (forall k', In k' (dict_keys b) -> ~ In k' (dict_keys acc)) ->
    dict_merge ((k, v) :: acc) b
    = (k, match dict_get b k with Some v' => v' | None => v end)
        :: (acc ++ filter (fun kv => negb (String.eqb (fst kv) k)) b)%list.
Proof.
  unfold dict_merge.
  induction b as [|[k0 v0] b IH]; intros v acc Hwf Hk Hd; simpl.
  - rewrite app_nil_r. reflexivity.
  - inversion Hwf as [|? ? Hn Hwf']; subst.
    destruct (String.eqb_spec k0 k) as [->|Hne]; simpl.
    + rewrite String.eqb_refl.
      rewrite (IH v0 acc Hwf' Hk); [|intros k' Hin; apply Hd; right; exact Hin].
      rewrite (dict_get_absent b k Hn). reflexivity.
    + destruct (String.eqb_spec k k0) as [E|_]; [congruence|].
      assert (Hset : dict_set acc k0 v0 = (acc ++ [(k0, v0)])%list).
      { assert (Hacc : ~ In k0 (dict_keys acc)) by (apply Hd; left; reflexivity).
        clear - Hacc. induction acc as [|[k1 v1] acc IHa]; simpl;
          [reflexivity|].
        simpl in Hacc.
        destruct (String.eqb_spec k0 k1) as [->|_];
          [exfalso; apply Hacc; left; reflexivity|].
        rewrite IHa; [reflexivity | intros H; apply Hacc; right; exact H]. }
      rewrite Hset.
      rewrite (IH v (acc ++ [(k0, v0)])%list Hwf').
      * rewrite <- app_assoc. reflexivity.
      * unfold dict_keys. rewrite map_app, in_app_iff. simpl.
        intros [H|[H|[]]]; [exact (Hk H) | congruence].
      * intros k' Hin. unfold dict_keys. rewrite map_app, in_app_iff. simpl.
        intros [H|[H|[]]].
        -- exact (Hd k' (or_intror Hin) H).
        -- subst k'. exact (Hn Hin).
Qed.

Lemma dict_merge_one {V} (k : string) (v : V) (b : dict V) :
  dict_wf b ->
  dict_merge [(k, v)] b
  = (k, match dict_get b k with Some v' => v' | None => v end)
      :: filter (fun kv => negb (String.eqb (fst kv) k)) b.
Proof.
  intros Hwf.
  exact (dict_merge_one_aux k b v [] Hwf (fun H => H) (fun _ _ H => H)).
Qed.

Lemma last_named_set_other {V} (q : string -> bool) (d : dict V) k v :
  q k = false -> last_named q (dict_set d k v) = last_named q d.
Proof.
  intros Hq. induction d as [|[k0 v0] d IH]; simpl.
  - rewrite Hq. reflexivity.
  - destruct (String.eqb_spec k k0) as [->|_]; simpl.
    + rewrite Hq. reflexivity.
    + rewrite IH. reflexivity.
Qed.

Lemma last_named_filter {V} (q p : string -> bool) (d : dict V) :
  last_named q (filter (fun kv => p (fst kv)) d)
  = last_named (fun k => q k && p k) d.
Proof.
  induction d as [|[k0 v0] d IH]; simpl; [reflexivity|].
  destruct (p k0) eqn:Hp; simpl; rewrite IH.
  - rewrite andb_true_r. reflexivity.
  - rewrite andb_false_r. destruct (last_named _ d); reflexivity.
Qed.

Lemma last_named_none {V} (q : string -> bool) (d : dict V) :
  (forall k v, In (k, v) d -> q k = false) -> last_named q d = None.
Proof.
  induction d as [|[k0 v0] d IH]; intros H; simpl; [reflexivity|].
  rewrite IH; [|intros k v Hin; apply (H k v); right; exact Hin].
  rewrite (H k0 v0); [reflexivity | left; reflexivity].
Qed.

Lemma last_named_In {V} (q : string -> bool) (d : dict V) v :
  last_named q d = Some v -> exists k, In (k, v) d /\ q k = true.
Proof.
  induction d as [|[k0 v0] d IH]; simpl; [discriminate|].
  destruct (last_named q d) as [x|].
  - intros E. destruct (IH E) as (k & Hin & Hq). exists k. auto.
  - destruct (q k0) eqn:Hq; [|discriminate].
    intros E. injection E as <-. exists k0. auto.
Qed.

(** The headers urllib keeps: under a name, the value of the last item given
    whose key capitalises to that name. *)
Lemma stored_headers_get (given : dict string) (name : string) :
  dict_get (stored_headers given) name
  = last_named (fun k => String.eqb (PyStr.capitalize k) name) given.
Proof.
  unfold stored_headers.
  assert (H : forall stored,
             dict_get
               (fold_left
                  (fun stored kv =>
                     dict_set stored (PyStr.capitalize (fst kv)) (snd kv))
                  given stored) name
             = match last_named
                       (fun k => String.eqb (PyStr.capitalize k) name) given
               with
               | Some x => Some x
               | None => dict_get stored name
               end).
  { induction given as [|[k0 v0] given IH]; intros stored; simpl;
      [reflexivity|].
    rewrite IH.
    destruct (last_named _ given); [reflexivity|].
    rewrite dict_get_set, (String.eqb_sym name).
    destruct (String.eqb (PyStr.capitalize k0) name); reflexivity. }
  rewrite H. simpl. destruct (last_named _ given); reflexivity.
Qed.

(** X5.  The [Accept] header the request carries, once urllib has stored the
    headers under their capitalised names.  The caller's headers are looked
    at in their order: the value is that of the caller's last header whose
    name capitalises to [Accept] without being written [Accept]; when there
    is none, that of the caller's [Accept]; and [application/json] when the
    caller has none either.  In particular the request carries
    [application/json] when no name of the caller capitalises to [Accept],
    and otherwise a value the caller gave under such a name. *)
Theorem accept_header_is_json_unless_overridden url data params headers
    method data_as_json :
  dict_wf (or_empty headers) ->
  let carried :=
    dict_get
      (stored_headers
         (req_headers
            (httprequest_of url data params headers method data_as_json)))
      "Accept" in
  let respelled k :=
    String.eqb (PyStr.capitalize k) "Accept"
    && negb (String.eqb k "Accept") in
  carried
  = Some (match last_named respelled (or_empty headers) with
          | Some accept => accept
          | None =>
              match dict_get (or_empty headers) "Accept" with
              | Some accept => accept
              | None => "application/json"
              end
          end)
  /\ ((forall k v, In (k, v) (or_empty headers) ->
         PyStr.capitalize k <> "Accept") ->
      carried = Some "application/json")
  /\ (forall k v, In (k, v) (or_empty headers) ->
        PyStr.capitalize k = "Accept" ->
        exists k' v', In (k', v') (or_empty headers)
                      /\ PyStr.capitalize k' = "Accept"
                      /\ carried = Some v').
Proof.
  intros Hwf carried respelled.
  assert (Hexact :
            carried
            = Some (match last_named respelled (or_empty headers) with
                    | Some accept => accept
                    | None =>
                        match dict_get (or_empty headers) "Accept" with
                        | Some accept => accept
                        | None => "application/json"
                        end
                    end)).
  { unfold carried. rewrite stored_headers_get, httprequest_of_fields.
    cbv zeta. simpl req_headers.
    set (q := fun k => String.eqb (PyStr.capitalize k) "Accept").
    assert (Hbase :
              last_named q
                (dict_merge [("Accept", "application/json")]
                   (or_empty headers))
              = Some (match last_named respelled (or_empty headers) with
                      | Some accept => accept
                      | None =>
                          match dict_get (or_empty headers) "Accept" with
                          | Some accept => accept
                          | None => "application/json"
                          end
                      end)).
    { rewrite (dict_merge_one _ _ _ Hwf).
      change (last_named q (?x :: ?l))
        with (match last_named q l with
              | Some y => Some y
              | None => if q (fst x) then Some (snd x) else None
              end).
      rewrite (last_named_filter q
                 (fun k => negb (String.eqb k "Accept")) (or_empty headers)).
      change (fun k => q k && negb (String.eqb k "Accept")) with respelled.
      destruct (last_named respelled (or_empty headers)); reflexivity. }
    destruct (if String.eqb (PyStr.upper method) "GET" then []
              else or_empty data); [exact Hbase|].
    destruct data_as_json; [|exact Hbase].
    rewrite last_named_set_other; [exact Hbase | reflexivity]. }
  split; [exact Hexact|]. split.
  - intros Hnone. rewrite Hexact.
    rewrite last_named_none.
    + destruct (dict_get (or_empty headers) "Accept") as [v|] eqn:Hg;
        [|reflexivity].
      exfalso. apply dict_get_In in Hg.
      exact (Hnone "Accept" v Hg eq_refl).
    + intros k v Hin. unfold respelled.
      destruct (String.eqb_spec (PyStr.capitalize k) "Accept") as [E|_];
        [exfalso; exact (Hnone k v Hin E) | reflexivity].
  - intros k v Hin Hcap. rewrite Hexact.
    destruct (last_named respelled (or_empty headers)) as [x|] eqn:Hl.
    + destruct (last_named_In _ _ _ Hl) as (k' & Hin' & Hq).
      exists k', x. split; [exact Hin'|]. split; [|reflexivity].
      unfold respelled in Hq. apply andb_prop in Hq.
      apply String.eqb_eq. exact (proj1 Hq).
    + destruct (String.eqb_spec k "Accept") as [->|Hne].
      * exists "Accept", v. split; [exact Hin|]. split; [reflexivity|].
        rewrite (dict_In_get _ _ _ _ Hwf Hin). reflexivity.
      * exfalso.
        assert (Hq : respelled k = true).
        { unfold respelled. rewrite Hcap. simpl.
          destruct (String.eqb_spec k "Accept"); [contradiction|reflexivity]. }
        clear - Hl Hin Hq. induction (or_empty headers) as [|[k0 v0] d IH];
          [destruct Hin|].
        simpl in Hl. destruct (last_named respelled d) eqn:Hd;
          [discriminate|].
        destruct Hin as [E|Hin'].
        -- injection E as -> ->. rewrite Hq in Hl. discriminate.
        -- exact (IH eq_refl Hin').
Qed.


(** X7.  Without [data_as_json] the body is [urlencode(data)], encoded
    without [doseq] and with no safe characters, and the headers are the
    caller's with the [Accept] default: no content type is added. *)
Theorem form_body_of_a_write url data params headers method :
  PyStr.upper method <> "GET" ->
  or_empty data <> [] ->
  let r := httprequest_of url data params headers method false in
  req_data r = Some (urlencode (or_empty data) false "")
  /\ req_headers r
     = dict_merge [("Accept", "application/json")] (or_empty headers).
Proof.
  intros Hm Hd r. unfold r. rewrite httprequest_of_fields. cbv zeta.
  apply String.eqb_neq in Hm. rewrite Hm. simpl.
  destruct (or_empty data) as [|kv d]; [congruence|].
  split; reflexivity.
Qed.

(** X8.  The request has no body exactly when the method is GET (in any
    letter case) or there is no data. *)
Theorem no_body_iff_get_or_no_data url data params headers method
    data_as_json :
  req_data (httprequest_of url data params headers method data_as_json) = None
  <-> (PyStr.upper method = "GET" \/ or_empty data = []).
Proof.
  rewrite httprequest_of_fields. cbv zeta. simpl req_data.
  destruct (String.eqb_spec (PyStr.upper method) "GET") as [Hm|Hm].
  - split; auto.
  - destruct (or_empty data) as [|kv d].
    + split; auto.
    + split; [discriminate|]. intros [H|H]; [contradiction | discriminate].
Qed.

Lemma append_same_l (s t : string) : (s ++ t)%string = s -> t = EmptyString.
Proof.
  induction s as [|c s IH]; simpl; [auto|].
  intros E. inversion E. auto.
Qed.

(** X9.  The URL is left as given exactly when there is nothing to put in
    the query: no params, and for a GET no data either.  Otherwise it is the
    given URL followed by [?] and the encoded query. *)
Theorem url_is_extended_iff_there_is_a_query url data params headers method
    data_as_json :
  let query :=
    if String.eqb (PyStr.upper method) "GET"
    then dict_merge (or_empty params) (or_empty data)
    else or_empty params in
  let r := httprequest_of url data params headers method data_as_json in
  (req_url r = url <-> query = [])
  /\ (query <> [] ->
      req_url r = (url ++ "?" ++ urlencode query true "/")%string).
Proof.
  intros query r. unfold r. rewrite httprequest_of_fields. cbv zeta.
  fold query. simpl req_url. destruct query as [|kv q].
  - split; [tauto | congruence].
  - split; [|reflexivity]. split; [|discriminate].
    intros E. apply append_same_l in E. discriminate E.
Qed.

(* --------------------------------------------------------------- *)
(** *** What a run adds to the world *)

Section Grows.

Variable P : Request -> Prop.
Variable Q : string * string -> Prop.

Lemma grows_refl w : grows P Q 0 0 w w.
Proof.
  exists [], [], []. rewrite !app_nil_r. repeat split; auto.
Qed.

Lemma grows_trans n1 m1 n2 m2 w1 w2 w3 :
  grows P Q n1 m1 w1 w2 -> grows P Q n2 m2 w2 w3 ->
  grows P Q (n1 + n2) (m1 + m2) w1 w3.
Proof.
  intros (r1 & f1 & o1 & Hn1 & Hf1 & Ho1 & HP1 & HQ1 & Hl1 & Hk1)
         (r2 & f2 & o2 & Hn2 & Hf2 & Ho2 & HP2 & HQ2 & Hl2 & Hk2).
  exists (r1 ++ r2)%list, (f1 ++ f2)%list, (o1 ++ o2)%list.
  rewrite Hn2, Hf2, Ho2, Hn1, Hf1, Ho1, !app_assoc, !length_app.
  repeat split; try apply Forall_app; auto; lia.
Qed.

Lemma grows_weaken n m n' m' w w' :
  n <= n' -> m <= m' -> grows P Q n m w w' -> grows P Q n' m' w w'.
Proof.
  intros Hn Hm (r & f & o & H1 & H2 & H3 & H4 & H5 & H6 & H7).
  exists r, f, o. repeat split; auto; lia.
Qed.

Lemma grows_sent w r : P r -> grows P Q 1 0 w (sent w r).
Proof.
  intros H. exists [r], [], []. simpl. rewrite !app_nil_r.
  repeat split; auto.
Qed.

Lemma confined_weaken {A} n m n' m' (c : M A) :
  n <= n' -> m <= m' -> confined P Q n m c -> confined P Q n' m' c.
Proof. intros Hn Hm H w. exact (grows_weaken _ _ _ _ _ _ Hn Hm (H w)). Qed.

Lemma confined_ret {A} (a : A) : confined P Q 0 0 (ret a).
Proof. intros w. apply grows_refl. Qed.

Lemma confined_raise {A} e : confined P Q 0 0 (@raise A e).
Proof. intros w. apply grows_refl. Qed.

Lemma confined_lift {A} (r : result A) : confined P Q 0 0 (lift r).
Proof. intros w. apply grows_refl. Qed.

Lemma confined_print line : confined P Q 0 0 (print line).
Proof.
  intros w. exists [], [], [line]. simpl. rewrite !app_nil_r.
  repeat split; auto.
Qed.

Lemma confined_append_to_file name text :
  Q (name, text) -> confined P Q 0 1 (append_to_file name text).
Proof.
  intros H w. exists [], [(name, text)], []. simpl. rewrite !app_nil_r.
  repeat split; auto.
Qed.

Lemma confined_request url data params headers method data_as_json
    error_count :
  P (httprequest_of url data params headers method data_as_json) ->
  confined P Q 1 0
    (request url data params headers method data_as_json error_count).
Proof.
  intros H w. destruct (begins_with_http url) eqn:Hg.
  - rewrite request_sent by exact Hg. apply grows_sent, H.
  - rewrite request_rejected by exact Hg.
    apply (grows_weaken 0 0); [lia | lia | apply grows_refl].
Qed.

Lemma confined_bind {A B} n1 m1 n2 m2 (c : M A) (f : A -> M B) :
  confined P Q n1 m1 c -> (forall a, confined P Q n2 m2 (f a)) ->
  confined P Q (n1 + n2) (m1 + m2) (bind c f).
Proof.
  intros Hc Hf w. specialize (Hc w). simpl.
  destruct (c w) as [[a|e] w1]; simpl in *.
  - exact (grows_trans _ _ _ _ _ _ _ Hc (Hf a w1)).
  - apply (grows_weaken n1 m1); [lia | lia | exact Hc].
Qed.

Lemma confined_for_each {A} n m (l : list A) (loop_body : A -> M unit) :
  (forall x, In x l -> confined P Q n m (loop_body x)) ->
  confined P Q (List.length l * n) (List.length l * m)
    (for_each l loop_body).
Proof.
  induction l as [|x l IH]; intros H.
  - apply confined_ret.
  - change (for_each (x :: l) loop_body)
      with (bind (loop_body x) (fun _ => for_each l loop_body)).
    simpl List.length. simpl Nat.mul.
    apply confined_bind; [apply H; left; reflexivity|].
    intros _. apply IH. intros y Hy. apply H. right. exact Hy.
Qed.

End Grows.

Lemma grows_impl (P P' : Request -> Prop) (Q Q' : string * string -> Prop)
    n m w w' :
  (forall r, P r -> P' r) -> (forall e, Q e -> Q' e) ->
  grows P Q n m w w' -> grows P' Q' n m w w'.
Proof.
  intros HP HQ (r & f & o & H1 & H2 & H3 & H4 & H5 & H6 & H7).
  exists r, f, o. repeat split; auto.
  - exact (Forall_impl _ HP H4).
  - exact (Forall_impl _ HQ H5).
Qed.

(** X10.  Whatever the server does, [request] hands at most one request to
    [urlopen], and it is the one built from its arguments; it writes no file
    and prints nothing. *)
Theorem request_only_sends_its_request url data params headers method
    data_as_json error_count w :
  let r := httprequest_of url data params headers method data_as_json in
  let w' :=
    snd (request url data params headers method data_as_json error_count w) in
  (w' = w \/ w' = sent w r)
  /\ files w' = files w
  /\ stdout w' = stdout w.
Proof.
  intros r w'. unfold w'. destruct (begins_with_http url) eqn:Hg.
  - rewrite request_sent by exact Hg. simpl. auto.
  - rewrite request_rejected by exact Hg. simpl. auto.
Qed.

(** X11.  A failure of [urlopen] other than an HTTP error status is not
    caught: [request] raises it after the one attempt, and so do the loop
    body and the loop when it happens while listing the keys of a project;
    the remaining projects are not visited. *)
Theorem transport_failure_propagates headers VCS ORG project projects w what :
  server (network w) (listing_request headers VCS ORG project)
  = OtherError what ->
  let g := listing_request headers VCS ORG project in
  get (checkout_key_url VCS ORG project) headers w
  = (Raised (Propagated what), sent w g)
  /\ rotate_project headers VCS ORG project w
     = (Raised (Propagated what), sent w g)
  /\ rotate_all headers VCS ORG (project :: projects) w
     = (Raised (Propagated what), sent w g).
Proof.
  intros Hs g.
  assert (Hget : get (checkout_key_url VCS ORG project) headers w
                 = (Raised (Propagated what), sent w g)).
  { unfold get. rewrite request_sent by apply checkout_key_url_http.
    fold (listing_request headers VCS ORG project). rewrite Hs. reflexivity. }
  assert (Hrun : rotate_project headers VCS ORG project w
                 = (Raised (Propagated what), sent w g)).
  { unfold rotate_project. simpl bind. rewrite Hget. reflexivity. }
  split; [exact Hget|]. split; [exact Hrun|].
  unfold rotate_all. rewrite for_each_cons, Hrun. reflexivity.
Qed.

(* --------------------------------------------------------------- *)
(** *** The rotation loop, case by case *)

(** X12.  A project whose key list is empty is skipped: the listing is the
    only request, nothing is written or printed, and the loop goes on with
    the remaining projects. *)
Theorem empty_key_list_is_skipped headers VCS ORG project projects w hdrs
    code text key_info :
  server (network w) (listing_request headers VCS ORG project)
  = HTTPResponse hdrs code text ->
  Py.getitem (json_value text) "items" = Returned key_info ->
  Py.len key_info = Returned 0%Z ->
  let g := listing_request headers VCS ORG project in
  rotate_project headers VCS ORG project w = (Returned tt, sent w g)
  /\ rotate_all headers VCS ORG (project :: projects) w
     = rotate_all headers VCS ORG projects (sent w g).
Proof.
  intros Hs Hi Hl g.
  assert (Hrun := rotate_project_listed _ _ _ _ _ _ _ _ Hs
                    (getitem_json_value_returns _ _ _ Hi)).
  cbv zeta in Hrun. rewrite Hi, Hl in Hrun. simpl in Hrun.
  split; [exact Hrun|].
  unfold rotate_all. rewrite for_each_cons, Hrun. reflexivity.
Qed.

(** X13.  An HTTP error status on the listing of a project's keys, 403
    included, ends the run: the loop raises the script's exception with the
    response inside, makes no creation call and visits no further project. *)
Theorem failed_key_listing_aborts headers VCS ORG project projects w reason
    hdrs code :
  server (network w) (listing_request headers VCS ORG project)
  = HTTPError reason hdrs code ->
  let g := listing_request headers VCS ORG project in
  rotate_all headers VCS ORG (project :: projects) w
  = (Raised (PyException
               (error_getting_ssh_keys
                  {| body := reason; headers := hdrs; status := code;
                     error_count := 1 |}
                  (checkout_key_url VCS ORG project))),
     sent w g).
Proof.
  intros Hs g. unfold rotate_all. rewrite for_each_cons.
  unfold rotate_project, get. simpl bind.
  rewrite request_sent by apply checkout_key_url_http.
  fold (listing_request headers VCS ORG project). rewrite Hs. reflexivity.
Qed.

(** The world after the key-creation branch, by cases on the answer. *)
Lemma rotate_project_due headers VCS ORG project w text key_info others
    public_key ssh_key_type :
  keys_listed headers VCS ORG project w text key_info others true
    public_key ssh_key_type ->
  PyStr.startswith public_key "ssh-rsa" = true ->
  let g := listing_request headers VCS ORG project in
  rotate_project headers VCS ORG project w
  = create_key headers VCS ORG project (json_value text) key_info (sent w g).
Proof.
  intros H Hk g.
  rewrite (rotate_project_keys_listed _ _ _ _ _ _ _ _ _ _ _ H).
  rewrite Hk. reflexivity.
Qed.


(** X15.  The old key is on file before the creation call is answered:
    whatever the server does with the creation call (success, 403, another
    error status, a transport failure), the records written for the project
    start with the listing in [old_keys_<org>.txt], and at most the new-key
    record follows. *)
Theorem old_key_is_logged_whatever_creation_does headers VCS ORG project w
    text key_info others public_key ssh_key_type :
  keys_listed headers VCS ORG project w text key_info others true
    public_key ssh_key_type ->
  PyStr.startswith public_key "ssh-rsa" = true ->
  let run := rotate_project headers VCS ORG project w in
  exists more,
    files (snd run)
    = (files w
       ++ (("old_keys_" ++ ORG ++ ".txt")%string,
           (py_str (json_value text) ++ newline)%string) :: more)%list
    /\ (more = []
        \/ exists line,
             more = [(("new_keys_" ++ ORG ++ ".txt")%string, line)]
             /\ fst run = Returned tt).
Proof.
  intros H Hk run. unfold run.
  rewrite (rotate_project_due _ _ _ _ _ _ _ _ _ _ H Hk).
  destruct H as (_ & _ & _ & _ & Ht).
  destruct (create_key_run headers VCS ORG project (json_value text)
              key_info ssh_key_type
              (sent w (listing_request headers VCS ORG project)) Ht)
    as (w2 & Hn & Hf & E).
  rewrite E. clear E. simpl files in Hf.
  destruct (response_of _ 0) as [resp|e].
  - destruct (status resp =? 403)%Z.
    + exists []. simpl. rewrite Hf. auto.
    + destruct (error_count resp >? 0)%Z.
      * exists []. simpl. rewrite Hf. auto.
      * destruct (json resp) as [new_key|e].
        -- eexists [_]. simpl. rewrite Hf, <- app_assoc. simpl.
           split; [reflexivity|]. right. eexists. split; reflexivity.
        -- exists []. simpl. rewrite Hf. auto.
  - exists []. simpl. rewrite Hf. auto.
Qed.

Lemma for_each_app {A} (l1 l2 : list A) (loop_body : A -> M unit) w :
  for_each (l1 ++ l2) loop_body w
  = bind (for_each l1 loop_body) (fun _ => for_each l2 loop_body) w.
Proof.
  revert w. induction l1 as [|x l1 IH]; intros w; [reflexivity|].
  simpl. destruct (loop_body x w) as [[[]|e] w1]; [|reflexivity].
  rewrite IH. reflexivity.
Qed.

(** X16.  The loop over two lists of projects, one after the other, is the
    loop over the first followed, if it returned, by the loop over the
    second from the world the first left; if the first raised, that is the
    result and the second list is not visited. *)
Theorem rotate_all_splits headers VCS ORG first second w :
  rotate_all headers VCS ORG (first ++ second) w
  = match rotate_all headers VCS ORG first w with
    | (Returned _, w1) => rotate_all headers VCS ORG second w1
    | (Raised e, w1) => (Raised e, w1)
    end.
Proof. unfold rotate_all. rewrite for_each_app. reflexivity. Qed.

(* --------------------------------------------------------------- *)
(** *** What the loop and [main] add to the world *)

Lemma confined_bind_le {A B} (P : Request -> Prop)
    (Q : string * string -> Prop) n1 m1 n2 m2 n m (c : M A) (f : A -> M B) :
  confined P Q n1 m1 c -> (forall a, confined P Q n2 m2 (f a)) ->
  n1 + n2 <= n -> m1 + m2 <= m ->
  confined P Q n m (bind c f).
Proof.
  intros Hc Hf Hn Hm.
  apply (confined_weaken P Q (n1 + n2) (m1 + m2)); [exact Hn | exact Hm|].
  apply confined_bind; assumption.
Qed.

Lemma confined_impl {A} (P P' : Request -> Prop)
    (Q Q' : string * string -> Prop) n m (c : M A) :
  (forall r, P r -> P' r) -> (forall e, Q e -> Q' e) ->
  confined P Q n m c -> confined P' Q' n m c.
Proof. intros HP HQ H w. exact (grows_impl _ _ _ _ _ _ _ _ HP HQ (H w)). Qed.

Lemma confined_create_key headers VCS ORG project ssh_keys_resp key_info :
  confined (project_request headers VCS ORG project) (log_write ORG) 1 2
    (create_key headers VCS ORG project ssh_keys_resp key_info).
Proof.
  unfold create_key.
  apply (confined_bind_le _ _ 0 0 1 2);
    [apply confined_print | intros _ | lia | lia].
  apply (confined_bind_le _ _ 0 0 1 2);
    [apply confined_lift | intros ssh_key_type | lia | lia].
  apply (confined_bind_le _ _ 0 0 1 2);
    [apply confined_print | intros _ | lia | lia].
  apply (confined_bind_le _ _ 0 1 1 1);
    [apply confined_append_to_file; left; reflexivity | intros _ | lia | lia].
  apply (confined_bind_le _ _ 0 0 1 1);
    [apply confined_print | intros _ | lia | lia].
  cbv zeta. unfold post.
  apply (confined_bind_le _ _ 1 0 0 1);
    [apply confined_request; right; exists ssh_key_type; reflexivity
    | intros checkout_key_resp | lia | lia].
  destruct (status checkout_key_resp =? 403)%Z;
    [apply (confined_weaken _ _ 0 0); [lia | lia | apply confined_print]|].
  destruct (error_count checkout_key_resp >? 0)%Z;
    [apply (confined_weaken _ _ 0 0); [lia | lia | apply confined_raise]|].
  apply (confined_bind_le _ _ 0 0 0 1);
    [apply confined_lift | intros v | lia | lia].
  apply confined_append_to_file. right. reflexivity.
Qed.

Lemma confined_rotate_project headers VCS ORG project :
  confined (project_request headers VCS ORG project) (log_write ORG) 2 2
    (rotate_project headers VCS ORG project).
Proof.
  unfold rotate_project. cbv zeta. unfold get.
  apply (confined_bind_le _ _ 1 0 1 2);
    [apply confined_request; left; reflexivity
    | intros ssh_keys_resp | lia | lia].
  destruct (error_count ssh_keys_resp >? 0)%Z;
    [apply (confined_weaken _ _ 0 0); [lia | lia | apply confined_raise]|].
  apply (confined_bind_le _ _ 0 0 1 2);
    [apply confined_lift | intros v | lia | lia].
  apply (confined_bind_le _ _ 0 0 1 2);
    [apply confined_lift | intros items | lia | lia].
  apply (confined_bind_le _ _ 0 0 1 2);
    [apply confined_lift | intros n | lia | lia].
  destruct (n =? 0)%Z;
    [apply (confined_weaken _ _ 0 0); [lia | lia | apply confined_ret]|].
  apply (confined_bind_le _ _ 0 0 1 2);
    [apply confined_lift | intros key_info | lia | lia].
  apply (confined_bind_le _ _ 0 0 1 2);
    [apply confined_lift | intros rotate | lia | lia].
  destruct rotate; [apply confined_create_key|].
  apply (confined_weaken _ _ 0 0); [lia | lia | apply confined_print].
Qed.

Lemma rotate_all_footprint_aux headers VCS ORG project_names :
  confined
    (fun r => exists project,
                In project project_names
                /\ project_request headers VCS ORG project r)
    (log_write ORG)
    (List.length project_names * 2) (List.length project_names * 2)
    (rotate_all headers VCS ORG project_names).
Proof.
  unfold rotate_all. apply confined_for_each. intros project Hin.
  refine (confined_impl _ _ _ _ _ _ _ _ _
            (confined_rotate_project headers VCS ORG project)).
  - intros r Hr. exists project. auto.
  - auto.
Qed.




Lemma projects_request_api token VCS ORG :
  api_request token (projects_request token VCS ORG).
Proof.
  unfold projects_request, token_headers, httprequest_of, api_request.
  simpl. repeat (split; [reflexivity|]). left. split; reflexivity.
Qed.

Lemma project_request_api token VCS ORG project r :
  project_request (token_headers token) VCS ORG project r ->
  api_request token r.
Proof.
  intros [->|(ssh_key_type & ->)].
  - unfold listing_request, token_headers, httprequest_of, api_request.
    simpl. repeat (split; [reflexivity|]). left. split; reflexivity.
  - unfold creation_request, token_headers, payload_for, api_request.
    destruct (Py.eq_str ssh_key_type "github-user-key");
      unfold httprequest_of; simpl;
      (split; [reflexivity|]); (split; [reflexivity|]);
      (split; [reflexivity|]); right; (split; [reflexivity|]).
    + exists "user-key". auto.
    + exists "deploy-key". auto.
Qed.

Local Arguments String.append : simpl never.

(** [main] from its first request on. *)
Lemma main_after_listing prog token ORG vcs_input VCS PROJECT more w :
  convert_vcs vcs_input = Returned VCS ->
  let g := projects_request token VCS ORG in
  let w1 := sent w g in
  main (prog :: token :: ORG :: vcs_input :: PROJECT :: more) w
  = match response_of (server (network w) g) 0 with
    | Raised e => (Raised e, w1)
    | Returned projects_resp =>
        if (error_count projects_resp >? 0)%Z
        then (Raised (PyException
                        (error_retrieving_projects projects_resp
                           (projects_url VCS ORG))), w1)
        else
          match json projects_resp with
          | Raised e => (Raised e, w1)
          | Returned decoded =>
              match select_projects ORG PROJECT decoded with
              | Raised e => (Raised e, w1)
              | Returned project_names =>
                  rotate_all (token_headers token) VCS ORG project_names w1
              end
          end
    end.
Proof.
  intros Hv g w1. unfold main, get. simpl. rewrite Hv. simpl.
  fold (token_headers token). fold (projects_url VCS ORG).
  rewrite request_sent by reflexivity.
  fold (projects_request token VCS ORG). fold g. fold w1.
  destruct (response_of (server (network w) g) 0) as [resp|e];
    [|reflexivity].
  destruct (error_count resp >? 0)%Z; [reflexivity|].
  simpl. destruct (json resp) as [decoded|e]; simpl; [|reflexivity].
  unfold select_projects. simpl.
  destruct (Py.contains decoded "projects") as [[|]|e];
    simpl; try reflexivity.
  destruct (Py.getitem decoded "projects") as [ps|e];
    simpl; [|reflexivity].
  destruct (Py.iter ps) as [items|e]; simpl; [|reflexivity].
  destruct (eligible_projects ORG items []) as [names|e]; simpl;
    [|reflexivity].
  destruct (narrow PROJECT names) as [selected|e]; reflexivity.
Qed.

(* --------------------------------------------------------------- *)
(** *** [main] before its second loop *)

Lemma main_needs_four_arguments_aux argv w :
  List.length argv <= 4 -> exists e, main argv w = (Raised e, w).
Proof.
  intros Hlen.
  destruct argv as [|prog [|token [|ORG [|vcs_input [|PROJECT more]]]]];
    try (exists IndexError; reflexivity).
  - unfold main. simpl.
    destruct (convert_vcs vcs_input) as [VCS|e]; simpl; eexists; reflexivity.
  - simpl in Hlen. lia.
Qed.

(** X18.  With fewer than four arguments after the program name [main]
    raises before touching the world; with fewer than three the exception is
    [IndexError]. *)
Theorem main_needs_four_arguments argv w :
  List.length argv <= 4 ->
  exists e,
    main argv w = (Raised e, w)
    /\ (List.length argv <= 3 -> e = IndexError).
Proof.
  intros Hlen.
  destruct argv as [|prog [|token [|ORG [|vcs_input [|PROJECT more]]]]];
    try (exists IndexError; split; [reflexivity | auto]).
  - unfold main. simpl.
    destruct (convert_vcs vcs_input) as [VCS|e]; simpl.
    + exists IndexError. split; [reflexivity | auto].
    + exists e. split; [reflexivity | simpl; lia].
  - simpl in Hlen. lia.
Qed.

(** X19.  An unrecognised VCS argument ends [main] with the exception of
    [convert_vcs] before any request is made, whatever else is on the
    command line. *)
Theorem main_rejects_an_unknown_vcs prog token ORG vcs_input more w e :
  convert_vcs vcs_input = Raised e ->
  main (prog :: token :: ORG :: vcs_input :: more) w = (Raised e, w).
Proof. intros H. unfold main. simpl. rewrite H. reflexivity. Qed.

(** X20.  An HTTP error status on the project listing ends [main] with the
    script's exception, the response inside, after that one request; no key
    is listed and nothing is written. *)
Theorem failed_project_listing_aborts prog token ORG vcs_input VCS PROJECT
    more w reason hdrs code :
  convert_vcs vcs_input = Returned VCS ->
  server (network w) (projects_request token VCS ORG)
  = HTTPError reason hdrs code ->
  main (prog :: token :: ORG :: vcs_input :: PROJECT :: more) w
  = (Raised (PyException
               (error_retrieving_projects
                  {| body := reason; headers := hdrs; status := code;
                     error_count := 1 |}
                  (projects_url VCS ORG))),
     sent w (projects_request token VCS ORG)).
Proof.
  intros Hv Hs.
  rewrite (main_after_listing _ _ _ _ _ _ _ _ Hv). cbv zeta.
  rewrite Hs. reflexivity.
Qed.


Lemma existsb_eqb_In (x : string) (l : list string) :
  existsb (String.eqb x) l = true <-> In x l.
Proof.
  rewrite existsb_exists. split.
  - intros (y & Hy & E). apply String.eqb_eq in E. subst. exact Hy.
  - intros H. exists x. split; [exact H | apply String.eqb_refl].
Qed.

(** X22.  After a listing of well-formed projects, [main] visits: with an
    empty project argument, every eligible project in the order of the
    listing; with a project argument that is among the eligible names, that
    one project, once; with any other project argument none: it raises
    [project name ... is not found] without listing any key. *)
Theorem main_visits_the_selected_projects prog token ORG vcs_input VCS
    PROJECT more w hdrs code text projects :
  convert_vcs vcs_input = Returned VCS ->
  server (network w) (projects_request token VCS ORG)
  = HTTPResponse hdrs code text ->
  Py.getitem (json_value text) "projects" = Returned (PList projects) ->
  Forall listed_project projects ->
  let project_names :=
    map (fun p => segment_from_end p 1)
      (filter (eligible_spec ORG) projects) in
  let w1 := sent w (projects_request token VCS ORG) in
  let run := main (prog :: token :: ORG :: vcs_input :: PROJECT :: more) w in
  (PROJECT = "" ->
     run = rotate_all (token_headers token) VCS ORG project_names w1)
  /\ (PROJECT <> "" -> In PROJECT project_names ->
      run = rotate_all (token_headers token) VCS ORG [PROJECT] w1)
  /\ (PROJECT <> "" -> ~ In PROJECT project_names ->
      run = (Raised (PyException (project_name_is_not_found PROJECT)), w1)).
Proof.
  intros Hv Hs Hg Hl project_names w1 run. unfold run.
  rewrite (main_after_listing _ _ _ _ _ _ _ _ Hv). cbv zeta.
  rewrite Hs. simpl. fold w1.
  rewrite (json_json_value
             {| body := text; headers := hdrs; status := code;
                error_count := 0 |}
             (getitem_json_value_returns _ _ _ Hg)). simpl.
  assert (Hc : Py.contains (json_value text) "projects" = Returned true).
  { destruct (json_value text); try discriminate Hg. simpl in *.
    destruct (dict_get d "projects"); [reflexivity | discriminate]. }
  unfold select_projects. simpl. rewrite Hc. simpl. rewrite Hg. simpl.
  rewrite (eligible_projects_filter ORG projects [] Hl). simpl.
  fold project_names. unfold narrow.
  split; [|split].
  - intros ->. reflexivity.
  - intros Hne Hin. apply String.eqb_neq in Hne. rewrite Hne. simpl.
    apply existsb_eqb_In in Hin. rewrite Hin. reflexivity.
  - intros Hne Hnin. apply String.eqb_neq in Hne. rewrite Hne. simpl.
    destruct (existsb (String.eqb PROJECT) project_names) eqn:E;
      [apply existsb_eqb_In in E; contradiction | reflexivity].
Qed.

(** X23.  Whatever the arguments and the server, a run of [main] only
    appends to the world.  Every request it makes goes to the CircleCI API
    over https with the token of the command line and the [Accept] header,
    as a GET without body or as a POST asking for a [user-key] or a
    [deploy-key]; every record it writes goes to [old_keys_<org>.txt] or
    [new_keys_<org>.txt] of the organization of the command line. *)
Theorem main_footprint argv w :
  exists reqs writes out,
    network (snd (main argv w)) = (network w ++ reqs)%list
    /\ files (snd (main argv w)) = (files w ++ writes)%list
    /\ stdout (snd (main argv w)) = (stdout w ++ out)%list
    /\ Forall (fun r => exists token,
                 nth_error argv 1 = Some token /\ api_request token r) reqs
    /\ Forall (fun e => exists ORG,
                 nth_error argv 2 = Some ORG /\ log_write ORG e) writes.
Proof.
  assert (Hnone : forall e, main argv w = (Raised e, w) ->
            exists reqs writes out,
              network (snd (main argv w)) = (network w ++ reqs)%list
              /\ files (snd (main argv w)) = (files w ++ writes)%list
              /\ stdout (snd (main argv w)) = (stdout w ++ out)%list
              /\ Forall (fun r => exists token,
                           nth_error argv 1 = Some token
                           /\ api_request token r) reqs
              /\ Forall (fun e => exists ORG,
                           nth_error argv 2 = Some ORG
                           /\ log_write ORG e) writes).
  { intros e E. rewrite E. exists [], [], []. simpl. rewrite !app_nil_r.
    repeat split; constructor. }
  destruct (Nat.le_gt_cases (List.length argv) 4) as [Hshort|Hlong].
  { destruct (main_needs_four_arguments_aux argv w Hshort) as (e & E).
    exact (Hnone e E). }
  destruct argv as [|prog [|token [|ORG [|vcs_input [|PROJECT more]]]]];
    try (simpl in Hlong; lia).
  destruct (convert_vcs vcs_input) as [VCS|e] eqn:Hv;
    [|apply (Hnone e); unfold main; simpl; rewrite Hv; reflexivity].
  set (P := fun r => exists token0,
              nth_error (prog :: token :: ORG :: vcs_input :: PROJECT :: more) 1
              = Some token0 /\ api_request token0 r).
  set (Q := fun e : string * string => exists ORG0,
              nth_error (prog :: token :: ORG :: vcs_input :: PROJECT :: more) 2
              = Some ORG0 /\ log_write ORG0 e).
  assert (Hg : P (projects_request token VCS ORG))
    by (exists token; split; [reflexivity | apply projects_request_api]).
  assert (Hfirst := grows_sent P Q w _ Hg).
  assert (Hall : exists n m,
             grows P Q n m w
               (snd (main (prog :: token :: ORG :: vcs_input :: PROJECT
                           :: more) w))).
  { rewrite (main_after_listing _ _ _ _ _ _ _ _ Hv). cbv zeta.
    destruct (response_of _ 0) as [resp|e]; [|exists 1, 0; exact Hfirst].
    destruct (error_count resp >? 0)%Z; [exists 1, 0; exact Hfirst|].
    destruct (json resp) as [decoded|e]; [|exists 1, 0; exact Hfirst].
    destruct (select_projects ORG PROJECT decoded)
      as [names|e]; [|exists 1, 0; exact Hfirst].
    exists (1 + List.length names * 2), (0 + List.length names * 2).
    apply (grows_trans P Q _ _ _ _ _ _ _ Hfirst).
    refine (grows_impl _ _ _ _ _ _ _ _ _ _
              (rotate_all_footprint_aux (token_headers token) VCS ORG names
                 _)).
    - intros r (project & _ & Hr). exists token.
      split; [reflexivity | exact (project_request_api _ _ _ _ _ Hr)].
    - intros e He. exists ORG. split; [reflexivity | exact He]. }
  destruct Hall as (n & m & reqs & writes & out & H1 & H2 & H3 & H4 & H5 & _).
  exists reqs, writes, out. auto.
Qed.

(* --------------------------------------------------------------- *)
(** *** The first loop on malformed projects *)

Lemma split_without_separator sep s :
  PyStr.mem_char sep s = false -> PyStr.split sep s = [s].
Proof.
  induction s as [|c s IH]; simpl; [reflexivity|]. intros H.
  apply orb_false_iff in H. destruct H as [Hc Hs].
  rewrite Ascii.eqb_sym, Hc, (IH Hs). reflexivity.
Qed.

Lemma split_with_separator sep s :
  PyStr.mem_char sep s = true -> 2 <= List.length (PyStr.split sep s).
Proof.
  induction s as [|c s IH]; simpl; [discriminate|]. intros H.
  rewrite (Ascii.eqb_sym c sep).
  destruct (Ascii.eqb sep c); simpl in *.
  - destruct (PyStr.split sep s) eqn:E; simpl; [|lia].
    destruct s; simpl in E; [discriminate|].
    destruct (Ascii.eqb _ _); [discriminate|].
    destruct (PyStr.split sep s); discriminate.
  - specialize (IH H). destruct (PyStr.split sep s); simpl in *; lia.
Qed.

Lemma split_pieces sep s :
  Forall (fun piece => PyStr.mem_char sep piece = false) (PyStr.split sep s).
Proof.
  induction s as [|c s IH]; simpl; [repeat constructor|].
  destruct (Ascii.eqb c sep) eqn:E.
  - constructor; [reflexivity | exact IH].
  - destruct (PyStr.split sep s) as [|h t]; [repeat constructor; simpl|].
    + rewrite Ascii.eqb_sym, E. reflexivity.
    + inversion IH; subst. constructor; [|assumption].
      simpl. rewrite Ascii.eqb_sym, E. assumption.
Qed.

Lemma eligible_projects_app ORG good rest project_names :
  Forall listed_project good ->
  eligible_projects ORG (good ++ rest) project_names
  = eligible_projects ORG rest
      (project_names
       ++ map (fun p => segment_from_end p 1)
            (filter (eligible_spec ORG) good))%list.
Proof.
  intros H. revert project_names.
  induction H as [|p good Hp _ IH]; intros project_names.
  - simpl. rewrite app_nil_r. reflexivity.
  - simpl app. rewrite eligible_projects_step by exact Hp. rewrite IH.
    simpl filter. destruct (eligible_spec ORG p); simpl;
      [rewrite <- app_assoc|]; reflexivity.
Qed.

(** X24.  One malformed project ends the first loop, wherever it stands
    after well-formed ones: without [vcs_url] the loop raises [KeyError];
    with a [vcs_url] that has no [/] it raises [IndexError] at the
    second-to-last segment; with a [vcs_url] but without [followers] it
    raises [KeyError]. *)
Theorem malformed_project_ends_the_first_loop ORG good bad rest :
  Forall listed_project good ->
  (forall d,
      bad = PDict d -> dict_get d "vcs_url" = None ->
      eligible_projects ORG (good ++ bad :: rest) []
      = Raised (KeyError (PStr "vcs_url")))
  /\ (forall vcs_url,
        Py.getitem bad "vcs_url" = Returned (PStr vcs_url) ->
        PyStr.mem_char "/" vcs_url = false ->
        eligible_projects ORG (good ++ bad :: rest) [] = Raised IndexError)
  /\ (forall d vcs_url,
        bad = PDict d -> dict_get d "vcs_url" = Some (PStr vcs_url) ->
        PyStr.mem_char "/" vcs_url = true ->
        dict_get d "followers" = None ->
        eligible_projects ORG (good ++ bad :: rest) []
        = Raised (KeyError (PStr "followers"))).
Proof.
  intros H. split; [|split].
  - intros d -> Hd. rewrite eligible_projects_app by exact H.
    simpl. rewrite Hd. reflexivity.
  - intros vcs_url Hu Hs. rewrite eligible_projects_app by exact H.
    simpl. rewrite Hu. simpl.
    rewrite (split_without_separator _ _ Hs). reflexivity.
  - intros d vcs_url -> Hu Hs Hf. rewrite eligible_projects_app by exact H.
    simpl. rewrite Hu. simpl.
    assert (Hlen := split_with_separator _ _ Hs).
    rewrite (from_end_nth _ 1 EmptyString) by lia.
    rewrite (from_end_nth _ 2 EmptyString) by lia.
    simpl. rewrite Hf. reflexivity.
Qed.

(** X25.  The project names the first loop returns contain no [/]: each is
    a whole segment of a [vcs_url]. *)
Theorem eligible_names_have_no_slash ORG projects project_names :
  Forall listed_project projects ->
  eligible_projects ORG projects [] = Returned project_names ->
  Forall (fun name => PyStr.mem_char "/" name = false) project_names.
Proof.
  intros H E. rewrite (eligible_projects_filter ORG projects [] H) in E.
  inversion E; subst. simpl. apply Forall_forall. intros name Hin.
  apply in_map_iff in Hin. destruct Hin as (p & <- & Hp).
  apply filter_In in Hp. destruct Hp as (Hp & _).
  rewrite Forall_forall in H. destruct (H p Hp) as (u & fs & Hu & _ & Hlen).
  unfold segment_from_end, vcs_url_segments. rewrite Hu. simpl.
  assert (Hpieces := split_pieces "/" u). rewrite Forall_forall in Hpieces.
  apply Hpieces. apply in_rev. apply nth_In. rewrite length_rev. lia.
Qed.

End Further.
(* ================================================================= *)
(** ** The properties on the example deployment *)

Local Open Scope string_scope.

(** The end-to-end run: one project with a preferred [ssh-rsa] deploy key is
    rotated, one with an [ssh-ed25519] key is left alone, the project without
    followers and the one of another organization are not looked at. *)
Example acme_run :
  let '(r, w) := main (env := Acme.usual) Acme.argv Acme.start in
  r = Returned tt
  /\ map (fun q => (req_method q, req_url q, req_data q)) (network w)
     = [("GET", Acme.settings_url, None);
        ("GET", Acme.widgets_url, None);
        ("POST", Acme.widgets_url,
         Some (Acme.dumps (PDict [("type", PStr "deploy-key")])));
        ("GET", Acme.gadgets_url, None)]
  /\ files w
     = [("old_keys_acme.txt", Acme.repr Acme.widgets_keys ++ newline);
        ("new_keys_acme.txt",
         "widgets new prefered key: " ++ Acme.repr Acme.new_key ++ " "
         ++ newline)].
Proof. vm_compute. repeat split. Qed.

(** The same run when the creation call fails with status 500: the script
    raises and [gadgets] is never looked at. *)
Example acme_run_aborts :
  let env := Acme.deployment (Acme.dumps Acme.widgets_keys) Acme.broken in
  let '(r, w) := main (env := env) Acme.argv Acme.start in
  r = Raised (PyException
                (error_creating_new_checkout_key
                   {| body := "Internal Server Error"; headers := [];
                      status := 500; error_count := 1 |} Acme.widgets_url))
  /\ map (fun q => (req_method q, req_url q)) (network w)
     = [("GET", Acme.settings_url); ("GET", Acme.widgets_url);
        ("POST", Acme.widgets_url)]
  /\ map fst (files w) = ["old_keys_acme.txt"].
Proof. vm_compute. repeat split. Qed.

(** C2, as first stated, fails on [httpx://evil/].  The text has no HTTP(S)
    scheme, yet the guard lets it through: [request] builds the request and
    passes it to urllib, and ends as urllib does.  Stock urllib has no
    handler for the scheme and raises its own error, which [request] lets
    through; with an opener that has one ([urllib.request.install_opener])
    [request] returns the answer.  In neither case does the guard raise, and
    in both the world has the request. *)
Lemma guard_lets_httpx_through :
  let url := "httpx://evil/" in
  let r :=
    {| req_url := url; req_data := None;
       req_headers := [("Accept", "application/json")];
       req_method := "GET" |} in
  let stock :=
    Acme.site [("GET", url, OtherError "unknown url type: httpx")] in
  let extended := Acme.site [("GET", url, HTTPResponse [] 200 "hello")] in
  has_http_scheme url = false
  /\ begins_with_http url = true
  /\ request (env := stock) url None None None "GET" true 0 Acme.start
     = (Raised (Propagated "unknown url type: httpx"), sent Acme.start r)
  /\ request (env := extended) url None None None "GET" true 0 Acme.start
     = (Returned {| body := "hello"; headers := []; status := 200;
                    error_count := 0 |}, sent Acme.start r)
  /\ network (sent Acme.start r) = [r].
Proof. vm_compute. repeat split. Qed.

(** C7, as first stated, fails on a body of 4301 digits.  [json.loads]
    raises [ValueError] on it (the interpreter's limit on the digits of an
    integer), which is no [JSONDecodeError]: the accessor does not catch it
    and raises. *)
Lemma json_raises_on_a_long_integer :
  let self :=
    {| body := Acme.long_integer; headers := []; status := 200;
       error_count := 0 |} in
  String.length (body self) = 4301
  /\ json_loads (Environment := Acme.usual) (body self) = Raised ValueError
  /\ json (env := Acme.usual) self = Raised ValueError.
Proof. vm_compute. repeat split. Qed.

Ltac acme_keys_listed :=
  split; [exists [], 200%Z; vm_compute; reflexivity
         | repeat split; vm_compute; reflexivity].

Lemma rotation_is_decided_by_the_first_key_witness :
  keys_listed (env := Acme.usual) Acme.token_headers "github" "acme" "widgets"
    Acme.start (Acme.dumps Acme.widgets_keys) Acme.widgets_key
    [Acme.spare_key] true "ssh-rsa AAAA" (PStr "deploy-key")
  /\ network (snd (rotate_project (env := Acme.usual) Acme.token_headers
                     "github" "acme" "widgets" Acme.start))
     = [listing_request (env := Acme.usual) Acme.token_headers "github" "acme"
          "widgets";
        creation_request (env := Acme.usual) Acme.token_headers "github"
          "acme" "widgets" (PStr "deploy-key")].
Proof.
  split; [acme_keys_listed|].
  refine (proj1 (rotation_is_decided_by_the_first_key (env := Acme.usual)
                   Acme.token_headers "github" "acme" "widgets" Acme.start
                   (Acme.dumps Acme.widgets_keys) Acme.widgets_key
                   [Acme.spare_key] true "ssh-rsa AAAA" (PStr "deploy-key")
                   _)).
  acme_keys_listed.
Defined.

(** The creation call is refused with 403: [widgets] is skipped and the loop
    goes on with [gadgets]. *)
Lemma creation_403_is_skipped_other_errors_abort_witness :
  let env := Acme.deployment (Acme.dumps Acme.widgets_keys) Acme.forbidden in
  let run :=
    rotate_project (env := env) Acme.token_headers "github" "acme" "widgets"
      Acme.start in
  fst run = Returned tt
  /\ rotate_all (env := env) Acme.token_headers "github" "acme"
       ["widgets"; "gadgets"] Acme.start
     = rotate_all (env := env) Acme.token_headers "github" "acme" ["gadgets"]
         (snd run)
  /\ files (snd run)
     = [("old_keys_acme.txt", Acme.repr Acme.widgets_keys ++ newline)].
Proof.
  intros env run.
  refine (proj1 (creation_403_is_skipped_other_errors_abort (env := env)
                   Acme.token_headers "github" "acme" "widgets" ["gadgets"]
                   Acme.start (Acme.dumps Acme.widgets_keys) Acme.widgets_key
                   [Acme.spare_key] "ssh-rsa AAAA" (PStr "deploy-key")
                   {| body := "Forbidden"; headers := []; status := 403;
                      error_count := 1 |} _ _ _) _).
  - acme_keys_listed.
  - reflexivity.
  - vm_compute. reflexivity.
  - reflexivity.
Defined.

(** The legacy key of the only project is a [github-user-key]: the creation
    call asks for a [user-key]. *)
Lemma replacement_key_type_follows_legacy_type_witness :
  let env := Acme.deployment (Acme.dumps Acme.user_keys) Acme.created in
  let p :=
    creation_request (env := env) Acme.token_headers "github" "acme" "widgets"
      (PStr "github-user-key") in
  network (snd (rotate_project (env := env) Acme.token_headers "github" "acme"
                  "widgets" Acme.start))
  = [listing_request (env := env) Acme.token_headers "github" "acme" "widgets";
     p]
  /\ req_method p = "POST"
  /\ req_data p = Some (Acme.dumps (PDict [("type", PStr "user-key")])).
Proof.
  intros env p.
  destruct (replacement_key_type_follows_legacy_type (env := env)
              Acme.token_headers "github" "acme" "widgets" Acme.start
              (Acme.dumps Acme.user_keys)
              (Acme.key "github-user-key" true "ssh-rsa DDDD") []
              "ssh-rsa DDDD" (PStr "github-user-key"))
    as (Hn & Hm & Hd & _).
  - acme_keys_listed.
  - reflexivity.
  - exact (conj Hn (conj Hm Hd)).
Defined.

Lemma eligible_projects_are_followed_and_in_the_organization_witness :
  Forall listed_project
    [Acme.widgets; Acme.gadgets; Acme.orphan; Acme.foreign]
  /\ eligible_projects "acme"
       [Acme.widgets; Acme.gadgets; Acme.orphan; Acme.foreign] []
     = Returned ["widgets"; "gadgets"].
Proof.
  assert (H : Forall listed_project
                [Acme.widgets; Acme.gadgets; Acme.orphan; Acme.foreign]).
  { repeat constructor;
      (eexists; eexists; split; [reflexivity|]; split; [reflexivity|];
       vm_compute; lia). }
  split; [exact H|].
  exact (proj1 (eligible_projects_are_followed_and_in_the_organization "acme"
                  [Acme.widgets; Acme.gadgets; Acme.orphan; Acme.foreign] H)).
Defined.




Lemma get_data_overrides_params_witness :
  req_url
    (httprequest_of (env := Acme.usual) "http://host/"
       (Some [("q", PStr "new")]) (Some [("q", PStr "old"); ("z", PInt 5)])
       None "GET" true)
  = "http://host/?q=new&z=5".
Proof.
  refine (proj1 (get_data_overrides_params (env := Acme.usual) "http://host/"
                   (Some [("q", PStr "new")])
                   (Some [("q", PStr "old"); ("z", PInt 5)]) None "GET" true
                   "q" (PStr "old") (PStr "new") _ _ _ _ _)).
  - reflexivity.
  - repeat constructor; simpl; intuition discriminate.
  - repeat constructor; simpl; intuition discriminate.
  - reflexivity.
  - reflexivity.
Defined.

(* ================================================================= *)
(** ** The further properties on the example deployment *)

Lemma convert_vcs_is_canonical_witness :
  convert_vcs "bb" = Returned "bitbucket"
  /\ convert_vcs "bitbucket" = Returned "bitbucket".
Proof.
  split; [reflexivity|].
  exact (proj2 (convert_vcs_is_canonical "bb" "bitbucket" eq_refl)).
Defined.

Lemma accept_header_is_json_unless_overridden_witness :
  dict_get
    (stored_headers
       (req_headers
          (httprequest_of (env := Acme.usual) "https://host/" None None
             (Some [("accept", "text/plain"); ("X-Id", "7")]) "GET" true)))
    "Accept"
  = Some "text/plain".
Proof.
  refine (proj1 (accept_header_is_json_unless_overridden (env := Acme.usual)
                   "https://host/" None None
                   (Some [("accept", "text/plain"); ("X-Id", "7")]) "GET"
                   true _)).
  repeat constructor; simpl; intuition discriminate.
Defined.


Lemma form_body_of_a_write_witness :
  let r :=
    httprequest_of (env := Acme.usual) "https://host/keys"
      (Some [("note", PStr "a b&c"); ("tags", PStr "x/y")]) None None
      "PUT" false in
  req_data r = Some "note=a+b%26c&tags=x%2Fy"
  /\ req_headers r = [("Accept", "application/json")].
Proof.
  refine (form_body_of_a_write (env := Acme.usual) "https://host/keys"
            (Some [("note", PStr "a b&c"); ("tags", PStr "x/y")]) None None
            "PUT" _ _); discriminate.
Defined.

Ltac acme_keys_listed_on_site :=
  split; [exists [], 200%Z; vm_compute; reflexivity
         | repeat split; vm_compute; reflexivity].

(** The listing of the keys of [widgets] times out. *)
Lemma transport_failure_propagates_witness :
  let env := Acme.site [("GET", Acme.widgets_url, Acme.timed_out)] in
  rotate_all (env := env) Acme.token_headers "github" "acme"
    ["widgets"; "gadgets"] Acme.start
  = (Raised (Propagated "timed out"),
     sent Acme.start
       (listing_request (env := env) Acme.token_headers "github" "acme"
          "widgets")).
Proof.
  intros env.
  refine (proj2 (proj2 (transport_failure_propagates (env := env)
                          Acme.token_headers "github" "acme" "widgets"
                          ["gadgets"] Acme.start "timed out" _))).
  reflexivity.
Defined.

(** [widgets] has no checkout key. *)
Lemma empty_key_list_is_skipped_witness :
  let env :=
    Acme.site [("GET", Acme.widgets_url,
                HTTPResponse [] 200 (Acme.dumps Acme.empty_keys))] in
  rotate_project (env := env) Acme.token_headers "github" "acme" "widgets"
    Acme.start
  = (Returned tt,
     sent Acme.start
       (listing_request (env := env) Acme.token_headers "github" "acme"
          "widgets")).
Proof.
  intros env.
  refine (proj1 (empty_key_list_is_skipped (env := env) Acme.token_headers
                   "github" "acme" "widgets" [] Acme.start [] 200%Z
                   (Acme.dumps Acme.empty_keys) (PList []) _ _ _));
    vm_compute; reflexivity.
Defined.

(** The listing of the keys of [widgets] is refused with 403. *)
Lemma failed_key_listing_aborts_witness :
  let env := Acme.site [("GET", Acme.widgets_url, Acme.forbidden)] in
  rotate_all (env := env) Acme.token_headers "github" "acme"
    ["widgets"; "gadgets"] Acme.start
  = (Raised (PyException
               (error_getting_ssh_keys
                  {| body := "Forbidden"; headers := []; status := 403;
                     error_count := 1 |}
                  Acme.widgets_url)),
     sent Acme.start
       (listing_request (env := env) Acme.token_headers "github" "acme"
          "widgets")).
Proof.
  intros env.
  refine (failed_key_listing_aborts (env := env) Acme.token_headers "github"
            "acme" "widgets" ["gadgets"] Acme.start "Forbidden" [] 403%Z _).
  reflexivity.
Defined.


(** The creation call for [widgets] times out: the old key is on file. *)
Lemma old_key_is_logged_whatever_creation_does_witness :
  let env :=
    Acme.deployment (Acme.dumps Acme.widgets_keys) Acme.timed_out in
  let run :=
    rotate_project (env := env) Acme.token_headers "github" "acme" "widgets"
      Acme.start in
  exists more,
    files (snd run)
    = ("old_keys_acme.txt", Acme.repr Acme.widgets_keys ++ newline) :: more
    /\ (more = []
        \/ exists line,
             more = [("new_keys_acme.txt", line)] /\ fst run = Returned tt).
Proof.
  intros env.
  refine (old_key_is_logged_whatever_creation_does (env := env)
            Acme.token_headers "github" "acme" "widgets" Acme.start
            (Acme.dumps Acme.widgets_keys) Acme.widgets_key [Acme.spare_key]
            "ssh-rsa AAAA" (PStr "deploy-key") _ _).
  - acme_keys_listed.
  - reflexivity.
Defined.

Lemma main_needs_four_arguments_witness :
  exists e,
    main (env := Acme.usual) ["ssh_generate.py"; "TOKEN"; "acme"] Acme.start
    = (Raised e, Acme.start)
    /\ (3 <= 3 -> e = IndexError).
Proof.
  refine (main_needs_four_arguments (env := Acme.usual)
            ["ssh_generate.py"; "TOKEN"; "acme"] Acme.start _).
  simpl. lia.
Defined.

Lemma main_rejects_an_unknown_vcs_witness :
  main (env := Acme.usual) ["ssh_generate.py"; "TOKEN"; "acme"; "GH"; ""]
    Acme.start
  = (Raised (PyException (invalid_vcs_provided "GH")), Acme.start).
Proof.
  refine (main_rejects_an_unknown_vcs (env := Acme.usual) "ssh_generate.py"
            "TOKEN" "acme" "GH" [""] Acme.start _ _).
  reflexivity.
Defined.

Lemma failed_project_listing_aborts_witness :
  let env := Acme.site [("GET", Acme.settings_url, Acme.unauthorized)] in
  main (env := env) Acme.argv Acme.start
  = (Raised (PyException
               (error_retrieving_projects
                  {| body := "Unauthorized"; headers := []; status := 401;
                     error_count := 1 |}
                  Acme.settings_url)),
     sent Acme.start (projects_request (env := env) "TOKEN" "github" "acme")).
Proof.
  intros env.
  refine (failed_project_listing_aborts (env := env) "ssh_generate.py"
            "TOKEN" "acme" "gh" "github" "" [] Acme.start "Unauthorized" []
            401%Z _ _); reflexivity.
Defined.


(** Asked for [gadgets] only, [main] visits [gadgets] only; asked for
    [orphan], which has no follower, it raises. *)
Lemma main_visits_the_selected_projects_witness :
  main (env := Acme.usual) ["ssh_generate.py"; "TOKEN"; "acme"; "gh"; "gadgets"]
    Acme.start
  = rotate_all (env := Acme.usual) (token_headers "TOKEN") "github" "acme"
      ["gadgets"]
      (sent Acme.start
         (projects_request (env := Acme.usual) "TOKEN" "github" "acme"))
  /\ main (env := Acme.usual)
       ["ssh_generate.py"; "TOKEN"; "acme"; "gh"; "orphan"] Acme.start
     = (Raised (PyException (project_name_is_not_found "orphan")),
        sent Acme.start
          (projects_request (env := Acme.usual) "TOKEN" "github" "acme")).
Proof.
  assert (Hl : Forall listed_project
                 [Acme.widgets; Acme.gadgets; Acme.orphan; Acme.foreign]).
  { repeat constructor;
      (eexists; eexists; split; [reflexivity|]; split; [reflexivity|];
       vm_compute; lia). }
  split.
  - refine (proj1 (proj2 (main_visits_the_selected_projects
                            (env := Acme.usual) "ssh_generate.py" "TOKEN"
                            "acme" "gh" "github" "gadgets" [] Acme.start []
                            200%Z (Acme.dumps Acme.settings)
                            [Acme.widgets; Acme.gadgets; Acme.orphan;
                             Acme.foreign] _ _ _ Hl)) _ _).
    + reflexivity.
    + reflexivity.
    + vm_compute. reflexivity.
    + discriminate.
    + vm_compute. auto.
  - refine (proj2 (proj2 (main_visits_the_selected_projects
                            (env := Acme.usual) "ssh_generate.py" "TOKEN"
                            "acme" "gh" "github" "orphan" [] Acme.start []
                            200%Z (Acme.dumps Acme.settings)
                            [Acme.widgets; Acme.gadgets; Acme.orphan;
                             Acme.foreign] _ _ _ Hl)) _ _).
    + reflexivity.
    + reflexivity.
    + vm_compute. reflexivity.
    + discriminate.
    + vm_compute. intuition discriminate.
Defined.

Lemma malformed_project_ends_the_first_loop_witness :
  eligible_projects "acme"
    [Acme.widgets; Acme.project "widgets" [PStr "ann"]; Acme.gadgets] []
  = Raised IndexError.
Proof.
  refine (proj1 (proj2 (malformed_project_ends_the_first_loop "acme"
                          [Acme.widgets] (Acme.project "widgets" [PStr "ann"])
                          [Acme.gadgets] _)) "widgets" _ _).
  - repeat constructor.
    eexists; eexists; split; [reflexivity|]; split; [reflexivity|].
    vm_compute; lia.
  - reflexivity.
  - reflexivity.
Defined.

Lemma eligible_names_have_no_slash_witness :
  Forall (fun name => PyStr.mem_char "/" name = false) ["widgets"; "gadgets"].
Proof.
  refine (eligible_names_have_no_slash "acme"
            [Acme.widgets; Acme.gadgets; Acme.orphan; Acme.foreign]
            ["widgets"; "gadgets"] _ _).
  - repeat constructor;
      (eexists; eexists; split; [reflexivity|]; split; [reflexivity|];
       vm_compute; lia).
  - reflexivity.
Defined.
